(** * aws-account-closure-notifier: the Lambda handler and its two senders

    A shallow embedding of [src/aws-account-closure-notifier-lambda.py]:
    the CloudTrail event as a Python value, the f-strings and [json.dumps]
    as string functions, and the three functions of the module as
    computations that may raise and that record every logger call, every
    [sns_client.publish] and every [http.request] they make. *)

From Stdlib Require Import String Ascii List ZArith Bool Lia.
From Stdlib Require Import DecimalString.
Import ListNotations.
Open Scope list_scope.
Open Scope string_scope.
Set Warnings "-register-all".

(** ** Python values

    The event is what the Lambda runtime decodes from JSON: [None], booleans,
    integers, strings, lists and dicts with string keys.  A dict keeps its
    insertion order (it shows in [str]), so it is an association list, read
    by its first binding of a key.  A character of a string is a code point
    below 256.  Numbers are integers: the program does nothing with a number
    but print it. *)

Inductive pyval : Type :=
| PNone : pyval
| PBool : bool -> pyval
| PInt : Z -> pyval
| PStr : string -> pyval
| PList : list pyval -> pyval
| PDict : list (string * pyval) -> pyval.

(** The exceptions the module can meet.  [KeyError], [TypeError],
    [AttributeError] and [IndexError] come from the operations on a value;
    [ValueError] from [strtobool]; [ExternalError] is whatever boto3 or
    urllib3 raises, kept by the text [str] gives for it. *)

Inductive pyexn : Type :=
| KeyError (key : string)
| TypeError (tyname : string)
| AttributeError (tyname attr : string)
| IndexError
| ValueError (msg : string)
| ExternalError (shown : string).

Inductive res (A : Type) : Type :=
| Ret (a : A)
| Raise (e : pyexn).
Arguments Ret {A} a.
Arguments Raise {A} e.

Module Py.

(** [type(v).__name__] *)
Definition type_name (v : pyval) : string :=
  match v with
  | PNone => "NoneType"
  | PBool _ => "bool"
  | PInt _ => "int"
  | PStr _ => "str"
  | PList _ => "list"
  | PDict _ => "dict"
  end.

Fixpoint lookup (k : string) (kvs : list (string * pyval)) : option pyval :=
  match kvs with
  | [] => None
  | (k', v) :: rest => if String.eqb k k' then Some v else lookup k rest
  end.

(** [v[k]] with a string key: a [KeyError] on a dict without the key, a
    [TypeError] on anything that is not a dict. *)
Definition getitem (v : pyval) (k : string) : res pyval :=
  match v with
  | PDict kvs =>
      match lookup k kvs with
      | Some x => Ret x
      | None => Raise (KeyError k)
      end
  | _ => Raise (TypeError (type_name v))
  end.

(** [v.get(k)]: [None] for a missing key; only a dict has the method. *)
Definition get (v : pyval) (k : string) : res pyval :=
  match v with
  | PDict kvs =>
      match lookup k kvs with
      | Some x => Ret x
      | None => Ret PNone
      end
  | _ => Raise (AttributeError (type_name v) "get")
  end.

(** [s.split(sep)] for a one-character separator: the pieces between the
    separators, never an empty list. *)
Fixpoint split_on (sep : ascii) (s : string) : list string :=
  match s with
  | EmptyString => [EmptyString]
  | String c rest =>
      if Ascii.eqb c sep then EmptyString :: split_on sep rest
      else match split_on sep rest with
           | [] => [String c EmptyString]
           | piece :: pieces => String c piece :: pieces
           end
  end.

(** [v.split(':')]: only a string has the method. *)
Definition split (v : pyval) (sep : ascii) : res (list string) :=
  match v with
  | PStr s => Ret (split_on sep s)
  | _ => Raise (AttributeError (type_name v) "split")
  end.

(** [l[i]] on the list a split returns. *)
Definition index (l : list string) (i : nat) : res string :=
  match nth_error l i with
  | Some x => Ret x
  | None => Raise IndexError
  end.

(** [x in xs] for a list of string literals: [==] against each, and only a
    string equals a string. *)
Definition in_strs (x : pyval) (xs : list string) : bool :=
  match x with
  | PStr s => existsb (String.eqb s) xs
  | _ => false
  end.

(** *** [str] and [repr] *)

Definition str_of_Z (z : Z) : string := NilZero.string_of_int (Z.to_int z).

Definition hex_digit (n : N) : ascii :=
  match n with
  | 0 => "0" | 1 => "1" | 2 => "2" | 3 => "3" | 4 => "4" | 5 => "5"
  | 6 => "6" | 7 => "7" | 8 => "8" | 9 => "9" | 10 => "a" | 11 => "b"
  | 12 => "c" | 13 => "d" | 14 => "e" | _ => "f"
  end%N%char.

Definition hex2 (c : ascii) : string :=
  let n := N_of_ascii c in
  String (hex_digit (N.div n 16)) (String (hex_digit (N.modulo n 16)) EmptyString).

(** Code points [repr] prints as they are: the printable ASCII ones, and
    above them all but the C1 controls, the no-break space and the soft
    hyphen. *)
Definition printable (c : ascii) : bool :=
  let n := N_of_ascii c in
  ((32 <=? n) && (n <? 127) || (161 <=? n) && negb (n =? 173))%N.

Definition dquote : ascii := "034"%char.
Definition squote : ascii := "039"%char.
Definition backslash : ascii := "092"%char.

Definition contains (c : ascii) (s : string) : bool :=
  existsb (Ascii.eqb c) (list_ascii_of_string s).

Fixpoint repr_chars (quote : ascii) (s : string) : string :=
  match s with
  | EmptyString => EmptyString
  | String c rest =>
      (if Ascii.eqb c quote || Ascii.eqb c backslash
       then String backslash (String c EmptyString)
       else if Ascii.eqb c "009"%char then "\t"
       else if Ascii.eqb c "010"%char then "\n"
       else if Ascii.eqb c "013"%char then "\r"
       else if printable c then String c EmptyString
       else "\x" ++ hex2 c)
      ++ repr_chars quote rest
  end.

(** [repr] of a string: single quotes, unless it holds one and no double
    quote. *)
Definition repr_str (s : string) : string :=
  let quote := if contains squote s && negb (contains dquote s)
               then dquote else squote in
  String quote (repr_chars quote s ++ String quote EmptyString).

Definition join (sep : string) (l : list string) : string := String.concat sep l.

Fixpoint repr (v : pyval) : string :=
  match v with
  | PNone => "None"
  | PBool true => "True"
  | PBool false => "False"
  | PInt z => str_of_Z z
  | PStr s => repr_str s
  | PList l => "[" ++ join ", " (map repr l) ++ "]"
  | PDict kvs =>
      "{" ++ join ", " (map (fun kv => repr_str (fst kv) ++ ": " ++ repr (snd kv)) kvs) ++ "}"
  end.

(** [str(v)], which is what an f-string puts for [{v}]. *)
Definition str (v : pyval) : string :=
  match v with
  | PStr s => s
  | _ => repr v
  end.

(** [str(error)]; the wording of a [TypeError] is that of Python 3.11, the
    last version that ships [distutils]. *)
Definition str_exn (e : pyexn) : string :=
  match e with
  | KeyError k => repr_str k
  | TypeError "str" => "string indices must be integers, not 'str'"
  | TypeError "list" => "list indices must be integers or slices, not str"
  | TypeError t => "'" ++ t ++ "' object is not subscriptable"
  | AttributeError t a => "'" ++ t ++ "' object has no attribute '" ++ a ++ "'"
  | IndexError => "list index out of range"
  | ValueError m => m
  | ExternalError m => m
  end.

End Py.

(** ** [json.dumps]

    With the default arguments: [", "] and [": "] as separators, and every
    character outside the printable ASCII range escaped. *)

Module Json.

Definition hex4 (c : ascii) : string := "00" ++ Py.hex2 c.

Definition ascii_plain (c : ascii) : bool :=
  let n := N_of_ascii c in ((32 <=? n) && (n <=? 126))%N.

Fixpoint escape (s : string) : string :=
  match s with
  | EmptyString => EmptyString
  | String c rest =>
      (if Ascii.eqb c Py.dquote then String Py.backslash (String Py.dquote EmptyString)
       else if Ascii.eqb c Py.backslash then "\\"
       else if Ascii.eqb c "010"%char then "\n"
       else if Ascii.eqb c "013"%char then "\r"
       else if Ascii.eqb c "009"%char then "\t"
       else if Ascii.eqb c "008"%char then "\b"
       else if Ascii.eqb c "012"%char then "\f"
       else if ascii_plain c then String c EmptyString
       else "\u" ++ hex4 c)
      ++ escape rest
  end.

Definition quoted (s : string) : string :=
  String Py.dquote (escape s ++ String Py.dquote EmptyString).

Fixpoint dumps (v : pyval) : string :=
  match v with
  | PNone => "null"
  | PBool true => "true"
  | PBool false => "false"
  | PInt z => Py.str_of_Z z
  | PStr s => quoted s
  | PList l => "[" ++ Py.join ", " (map dumps l) ++ "]"
  | PDict kvs =>
      "{" ++ Py.join ", " (map (fun kv => quoted (fst kv) ++ ": " ++ dumps (snd kv)) kvs) ++ "}"
  end.

End Json.

(** ** Effects

    What the module does to the outside is a list of actions, in order: the
    logger calls, the [publish] calls on the SNS client and the [request]
    calls on the urllib3 pool.  A logger call is kept with its message: a
    text for the calls of the module, the event itself for the call the
    decorator of the handler makes ([LogValue]).  The outcome of a call to AWS or to the
    webhook is not the program's to decide: the [world] gives it, from the
    actions made so far and the call itself, as a response (kept by the text
    [str] gives for it) or as an exception. *)

Inductive level : Type := DEBUG | INFO | EXCEPTION.

Inductive action : Type :=
| Log (lvl : level) (msg : string)
| LogValue (lvl : level) (message : pyval)
| Publish (TopicArn : option string) (Subject Message : string)
| Request (method : string) (url : option string)
          (headers : list (string * string)) (body : string).

Definition world : Type := list action -> action -> res string.

(** A computation reads the actions made before it and yields a value or an
    exception together with the actions it made itself. *)
Definition M (A : Type) : Type := list action -> res A * list action.

Definition ret {A} (a : A) : M A := fun _ => (Ret a, []).

Definition lift {A} (r : res A) : M A := fun _ => (r, []).

Definition bind {A B} (m : M A) (k : A -> M B) : M B :=
  fun past =>
    match m past with
    | (Ret a, done) =>
        let '(r, more) := k a (past ++ done)%list in (r, (done ++ more)%list)
    | (Raise e, done) => (Raise e, done)
    end.

(** [try: m  except Exception as error: handler error] *)
Definition try_except {A} (m : M A) (handler : pyexn -> M A) : M A :=
  fun past =>
    match m past with
    | (Ret a, done) => (Ret a, done)
    | (Raise e, done) =>
        let '(r, more) := handler e (past ++ done)%list in (r, (done ++ more)%list)
    end.

Definition emit (a : action) : M unit := fun _ => (Ret tt, [a]).

Definition call (w : world) (a : action) : M string := fun past => (w past a, [a]).

Definition res_bind {A B} (r : res A) (k : A -> res B) : res B :=
  match r with
  | Ret a => k a
  | Raise e => Raise e
  end.

Notation "x <- m ;; k" := (bind m (fun x => k))
  (at level 61, m at next level, right associativity).
Notation "m ;; k" := (bind m (fun _ => k))
  (at level 61, right associativity).
Notation "'let?' x := r 'in' k" := (res_bind r (fun x => k))
  (at level 10, x name, r at level 100, k at level 200).

(** The line feed an f-string writes for [\n]. *)
Definition nl : string := String "010"%char EmptyString.

(** ** Configuration: the module's globals, read from the environment *)

Record config : Type := {
  SLACK_ENDPOINT : option string;
  SLACK_NOTIFICATION : bool;
  SNS_TOPIC_ARN : option string
}.

(** [str.lower] on one code point below 256: the capitals [A]-[Z] and the
    Latin-1 capitals 192-222, the multiplication sign 215 apart, move up by
    32. *)
Definition lower_char (c : ascii) : ascii :=
  let n := N_of_ascii c in
  if ((65 <=? n) && (n <=? 90) || (192 <=? n) && (n <=? 222) && negb (n =? 215))%N
  then ascii_of_N (n + 32) else c.

Fixpoint lower (s : string) : string :=
  match s with
  | EmptyString => EmptyString
  | String c rest => String (lower_char c) (lower rest)
  end.

(** [distutils.util.strtobool], read as the flag it is used for. *)
Definition strtobool (val : string) : res bool :=
  let v := lower val in
  if existsb (String.eqb v) ["y"; "yes"; "t"; "true"; "on"; "1"] then Ret true
  else if existsb (String.eqb v) ["n"; "no"; "f"; "false"; "off"; "0"] then Ret false
  else Raise (ValueError ("invalid truth value " ++ Py.repr_str v)).

Definition environ_get (env : list (string * string)) (k : string) : option string :=
  match find (fun kv => String.eqb k (fst kv)) env with
  | Some kv => Some (snd kv)
  | None => None
  end.

Definition load_config (env : list (string * string)) : res config :=
  let? flag := strtobool (match environ_get env "SLACK_NOTIFICATION" with
                          | Some v => v
                          | None => "false"
                          end) in
  Ret {| SLACK_ENDPOINT := environ_get env "SLACK_ENDPOINT";
         SLACK_NOTIFICATION := flag;
         SNS_TOPIC_ARN := environ_get env "SNS_TOPIC_ARN" |}.

(** ** The module

    The four expressions the f-strings are built from.  Each is evaluated
    anew wherever the source writes it. *)

(** [message_detail.get('eventName')] *)
Definition eventName (message_detail : pyval) : res pyval :=
  Py.get message_detail "eventName".

(** [message_detail.get('requestParameters').get('accountId')] *)
Definition accountId (message_detail : pyval) : res pyval :=
  let? requestParameters := Py.get message_detail "requestParameters" in
  Py.get requestParameters "accountId".

(** [message_detail.get('userIdentity').get('principalId').split(':')[1]] *)
Definition principal (message_detail : pyval) : res string :=
  let? userIdentity := Py.get message_detail "userIdentity" in
  let? principalId := Py.get userIdentity "principalId" in
  let? segments := Py.split principalId ":" in
  Py.index segments 1.

(** [message_detail.get('eventTime')] *)
Definition eventTime (message_detail : pyval) : res pyval :=
  Py.get message_detail "eventTime".

(** The f-strings, as functions of the texts that fill their holes. *)

(** [f"AWS {..} Notification"], the [Subject] of the publish and the title
    of the header block. *)
Definition f_title (name : string) : string := "AWS " ++ name ++ " Notification".

(** The [Message] of the publish: six holes. *)
Definition f_message (name account name' account' who time : string) : string :=
  name ++ " action has been made for Account"
  ++ " " ++ account ++ nl ++ nl
  ++ "Action: " ++ name' ++ " " ++ nl
  ++ "   Target Account: " ++ account' ++ nl
  ++ "   Calling Principal: " ++ who ++ " " ++ nl
  ++ "   TimeStamp: " ++ time.

(** The dict literal that goes to [json.dumps]: five holes. *)
Definition blocks_literal (name name' account who time : string) : pyval :=
  PDict
    [("blocks", PList
       [PDict
          [("type", PStr "header");
           ("text", PDict
              [("type", PStr "plain_text");
               ("text", PStr (f_title name))])];
        PDict
          [("type", PStr "section");
           ("fields", PList
              [PDict [("type", PStr "mrkdwn");
                      ("text", PStr ("*Action:*" ++ nl ++ name'))];
               PDict [("type", PStr "mrkdwn");
                      ("text", PStr ("*Target Account:*" ++ nl ++ account))];
               PDict [("type", PStr "mrkdwn");
                      ("text", PStr ("*Calling Principal:*" ++ nl ++ who))];
               PDict [("type", PStr "mrkdwn");
                      ("text", PStr ("*TimeStamp:*" ++ nl ++ time))]])]])].

(** The [Subject] argument of [publish]. *)
Definition sns_subject (message_detail : pyval) : res string :=
  let? name := eventName message_detail in
  Ret (f_title (Py.str name)).

(** The [Message] argument of [publish], its holes filled left to right. *)
Definition sns_message (message_detail : pyval) : res string :=
  let? name := eventName message_detail in
  let? account := accountId message_detail in
  let? name' := eventName message_detail in
  let? account' := accountId message_detail in
  let? who := principal message_detail in
  let? time := eventTime message_detail in
  Ret (f_message (Py.str name) (Py.str account) (Py.str name') (Py.str account')
         who (Py.str time)).

(** The message of the [logger.info] after a publish. *)
Definition sns_sent_log (message_detail : pyval) : res string :=
  let? name := eventName message_detail in
  let? account := accountId message_detail in
  Ret ("Successfully sent SNS notification for " ++ Py.str name
       ++ " event of account " ++ Py.str account).

(** The argument of [json.dumps], its holes filled top to bottom. *)
Definition slack_blocks (message_detail : pyval) : res pyval :=
  let? name := eventName message_detail in
  let? name' := eventName message_detail in
  let? account := accountId message_detail in
  let? who := principal message_detail in
  let? time := eventTime message_detail in
  Ret (blocks_literal (Py.str name) (Py.str name') (Py.str account) who (Py.str time)).

(** The three functions, as the [def]s write them.  The decorators of the
    handler are applied below, in [lambda_handler_decorated]; those of the
    two senders ([@tracer.capture_method]) trace around the call and pass its
    result or its exception through.  The construction of the urllib3 pool
    makes no call and is left out. *)

Section Module_.

Variable cfg : config.
Variable w : world.

Definition send_sns_notification (message_detail : pyval) : M unit :=
  try_except
    (Subject <- lift (sns_subject message_detail) ;;
     Message <- lift (sns_message message_detail) ;;
     call w (Publish (SNS_TOPIC_ARN cfg) Subject Message) ;;
     sent <- lift (sns_sent_log message_detail) ;;
     emit (Log INFO sent))
    (fun error =>
       emit (Log EXCEPTION ("Failed to send SNS notification: " ++ Py.str_exn error))).

Definition send_slack_notification (message_detail : pyval) : M unit :=
  blocks <- lift (slack_blocks message_detail) ;;
  let message_body := Json.dumps blocks in
  try_except
    (response <- call w (Request "POST" (SLACK_ENDPOINT cfg)
                           [("Content-Type", "application/json")] message_body) ;;
     emit (Log DEBUG ("Response: " ++ response)))
    (fun error =>
       emit (Log EXCEPTION ("Failed to send SLACK notification: " ++ Py.str_exn error))).

Definition lambda_handler (event : pyval) : M unit :=
  message_detail <- lift (Py.getitem event "detail") ;;
  name <- lift (Py.getitem message_detail "eventName") ;;
  if Py.in_strs name ["CloseAccount"; "RemoveAccountFromOrganization"] then
    name <- lift (Py.getitem message_detail "eventName") ;;
    requestParameters <- lift (Py.getitem message_detail "requestParameters") ;;
    account <- lift (Py.getitem requestParameters "accountId") ;;
    emit (Log INFO ("Received CloudWatch event of " ++ Py.str name
                    ++ " API for Account ID " ++ Py.str account)) ;;
    name <- lift (Py.getitem message_detail "eventName") ;;
    emit (Log INFO ("Sending SNS Notification for received event " ++ Py.str name)) ;;
    send_sns_notification message_detail ;;
    if SLACK_NOTIFICATION cfg then
      name <- lift (Py.getitem message_detail "eventName") ;;
      emit (Log INFO ("Sending SLACK Notification for received event " ++ Py.str name)) ;;
      send_slack_notification message_detail
    else ret tt
  else
    emit (Log INFO "Event received is not associated with CloseAccount/RemoveAccountFromOrganization API call").

End Module_.

(** The decorators of the handler.

    [@logger.inject_lambda_context(log_event=True)] logs the event at INFO
    and then calls the function; [@tracer.capture_lambda_handler], outside
    it, runs the call in a trace segment and passes its result or its
    exception through. *)

Definition inject_lambda_context (log_event : bool) (f : pyval -> M unit)
    (event : pyval) : M unit :=
  if log_event then emit (LogValue INFO event) ;; f event else f event.

Definition capture_lambda_handler (f : pyval -> M unit) (event : pyval) : M unit :=
  f event.

(** What the name [lambda_handler] is bound to once the module is loaded,
    and what the Lambda runtime calls. *)
Definition lambda_handler_decorated (cfg : config) (w : world) : pyval -> M unit :=
  capture_lambda_handler (inject_lambda_context true (lambda_handler cfg w)).

(** ** What a run shows

    The observations the properties below are stated with. *)

Definition is_publish (a : action) : bool :=
  match a with Publish _ _ _ => true | _ => false end.

Definition is_request (a : action) : bool :=
  match a with Request _ _ _ _ => true | _ => false end.

Definition is_dispatch (a : action) : bool := is_publish a || is_request a.

(** The value at a path of keys, when every step is a dict with the key. *)
Fixpoint at_path (v : pyval) (path : list string) : option pyval :=
  match path with
  | [] => Some v
  | k :: rest =>
      match v with
      | PDict kvs =>
          match Py.lookup k kvs with
          | Some x => at_path x rest
          | None => None
          end
      | _ => None
      end
  end.

(** The event's [detail.eventName] is exactly one of the two closure
    actions. *)
Definition closure_event (event : pyval) : bool :=
  match at_path event ["detail"; "eventName"] with
  | Some (PStr name) =>
      String.eqb name "CloseAccount" || String.eqb name "RemoveAccountFromOrganization"
  | _ => false
  end.

(** The handler has passed the filter and its first log line: the event has
    a detail [d] named [n], one of the two closure actions, with an account
    under [requestParameters]. *)
Definition dispatching (event d : pyval) (n : string) (account : pyval) : Prop :=
  Py.getitem event "detail" = Ret d /\
  Py.getitem d "eventName" = Ret (PStr n) /\
  (n = "CloseAccount" \/ n = "RemoveAccountFromOrganization") /\
  exists rp, Py.getitem d "requestParameters" = Ret rp /\
             Py.getitem rp "accountId" = Ret account.

(** The actions of a run, by the texts they carry. *)

Definition received_logs (n : string) (account : pyval) : list action :=
  [Log INFO ("Received CloudWatch event of " ++ n ++ " API for Account ID " ++ Py.str account);
   Log INFO ("Sending SNS Notification for received event " ++ n)].

Definition ignored_log : action :=
  Log INFO "Event received is not associated with CloseAccount/RemoveAccountFromOrganization API call".

Definition slack_log (n : string) : action :=
  Log INFO ("Sending SLACK Notification for received event " ++ n).

Definition sns_failed_log (e : pyexn) : action :=
  Log EXCEPTION ("Failed to send SNS notification: " ++ Py.str_exn e).

Definition slack_failed_log (e : pyexn) : action :=
  Log EXCEPTION ("Failed to send SLACK notification: " ++ Py.str_exn e).

Definition publish_of (cfg : config) (n : string) (account : pyval) (who : string)
    (time : pyval) : action :=
  Publish (SNS_TOPIC_ARN cfg) (f_title n)
    (f_message n (Py.str account) n (Py.str account) who (Py.str time)).

Definition request_of (cfg : config) (n : string) (account : pyval) (who : string)
    (time : pyval) : action :=
  Request "POST" (SLACK_ENDPOINT cfg) [("Content-Type", "application/json")]
    (Json.dumps (blocks_literal n n (Py.str account) who (Py.str time))).

Definition sns_result_log (w : world) (past : list action) (p : action)
    (n : string) (account : pyval) : action :=
  match w past p with
  | Ret _ => Log INFO ("Successfully sent SNS notification for " ++ n
                       ++ " event of account " ++ Py.str account)
  | Raise e => sns_failed_log e
  end.

Definition slack_result_log (w : world) (past : list action) (r : action) : action :=
  match w past r with
  | Ret response => Log DEBUG ("Response: " ++ response)
  | Raise e => slack_failed_log e
  end.

(** A world in which every call of one kind raises. *)
Definition raises_on (w : world) (kind : action -> bool) : Prop :=
  forall past a, kind a = true -> exists e, w past a = Raise e.

(** The webhook body as the interface description words it: a header block
    with a plain-text title, then a section block whose fields are all
    [mrkdwn] texts. *)
Module Spec.

Definition mrkdwn (text : string) : pyval :=
  PDict [("type", PStr "mrkdwn"); ("text", PStr text)].

Definition block_document (title : string) (fields : list string) : pyval :=
  PDict
    [("blocks", PList
       [PDict [("type", PStr "header");
               ("text", PDict [("type", PStr "plain_text"); ("text", PStr title)])];
        PDict [("type", PStr "section");
               ("fields", PList (map mrkdwn fields))]])].

(** A field: its label in bold, a line feed, its value. *)
Definition labelled (label value : string) : string :=
  "*" ++ label ++ ":*" ++ nl ++ value.

End Spec.

(** The texts that go out, written out character by character, to compare
    what the senders build with. *)
Module Wire.

(** A text with every apostrophe read as a double quote, so that JSON can be
    written in one piece. *)
Fixpoint quotes (s : string) : string :=
  match s with
  | EmptyString => EmptyString
  | String c rest =>
      String (if Ascii.eqb c Py.squote then Py.dquote else c) (quotes rest)
  end.

(** The JSON text of the webhook body around five texts, each already
    escaped as JSON wants it.  The backslash and [n] after each label are the
    two characters JSON writes for a line feed. *)
Definition body (title action account who time : string) : string :=
  quotes "{'blocks': [{'type': 'header', 'text': {'type': 'plain_text', 'text': '"
  ++ title
  ++ quotes "'}}, {'type': 'section', 'fields': [{'type': 'mrkdwn', 'text': '*Action:*\n"
  ++ action
  ++ quotes "'}, {'type': 'mrkdwn', 'text': '*Target Account:*\n"
  ++ account
  ++ quotes "'}, {'type': 'mrkdwn', 'text': '*Calling Principal:*\n"
  ++ who
  ++ quotes "'}, {'type': 'mrkdwn', 'text': '*TimeStamp:*\n"
  ++ time
  ++ quotes "'}]}]}".

(** A text JSON writes as it is: printable ASCII with no double quote and no
    backslash. *)
Definition plain (s : string) : bool :=
  forallb (fun c => Json.ascii_plain c && negb (Ascii.eqb c Py.dquote)
                    && negb (Ascii.eqb c Py.backslash))
          (list_ascii_of_string s).

End Wire.

(** Sample inputs: the end-to-end scenario of the specification and its
    malformed variants. *)
Module Sample.

Definition detail_of (name principalId : string) : pyval :=
  PDict [("eventName", PStr name);
         ("eventTime", PStr "2024-01-01T00:00:00Z");
         ("requestParameters", PDict [("accountId", PStr "123456789012")]);
         ("userIdentity", PDict [("principalId", PStr principalId)])].

Definition close_account : pyval :=
  PDict [("detail", detail_of "CloseAccount" "AIDAEXAMPLE:bob")].

Definition create_account : pyval :=
  PDict [("detail", detail_of "CreateAccount" "AIDAEXAMPLE:bob")].

Definition no_colon : pyval :=
  PDict [("detail", detail_of "CloseAccount" "AIDAEXAMPLE")].

Definition no_parameters : pyval :=
  PDict [("detail", PDict [("eventName", PStr "CloseAccount")])].

Definition no_detail : pyval :=
  PDict [("source", PStr "aws.organizations")].

Definition chat_on : config :=
  {| SLACK_ENDPOINT := Some "https://hooks.slack.com/services/T0/B0/X";
     SLACK_NOTIFICATION := true;
     SNS_TOPIC_ARN := Some "arn:aws:sns:us-east-1:111122223333:closures" |}.

Definition chat_off : config :=
  {| SLACK_ENDPOINT := None;
     SLACK_NOTIFICATION := false;
     SNS_TOPIC_ARN := Some "arn:aws:sns:us-east-1:111122223333:closures" |}.

(** What the scenario expects on the topic and on the webhook. *)

Definition close_account_message : string :=
  "CloseAccount action has been made for Account 123456789012" ++ nl
  ++ nl
  ++ "Action: CloseAccount " ++ nl
  ++ "   Target Account: 123456789012" ++ nl
  ++ "   Calling Principal: bob " ++ nl
  ++ "   TimeStamp: 2024-01-01T00:00:00Z".

Definition close_account_body : string :=
  Json.dumps
    (PDict
       [("blocks", PList
          [PDict [("type", PStr "header");
                  ("text", PDict [("type", PStr "plain_text");
                                  ("text", PStr "AWS CloseAccount Notification")])];
           PDict [("type", PStr "section");
                  ("fields", PList
                     [PDict [("type", PStr "mrkdwn");
                             ("text", PStr ("*Action:*" ++ nl ++ "CloseAccount"))];
                      PDict [("type", PStr "mrkdwn");
                             ("text", PStr ("*Target Account:*" ++ nl ++ "123456789012"))];
                      PDict [("type", PStr "mrkdwn");
                             ("text", PStr ("*Calling Principal:*" ++ nl ++ "bob"))];
                      PDict [("type", PStr "mrkdwn");
                             ("text", PStr ("*TimeStamp:*" ++ nl
                                            ++ "2024-01-01T00:00:00Z"))]])]])]).

(** The body of the scenario as the webhook receives it. *)
Definition close_account_body_text : string :=
  Wire.quotes "{'blocks': [{'type': 'header', 'text': {'type': 'plain_text', 'text': 'AWS CloseAccount Notification'}}, {'type': 'section', 'fields': [{'type': 'mrkdwn', 'text': '*Action:*\nCloseAccount'}, {'type': 'mrkdwn', 'text': '*Target Account:*\n123456789012'}, {'type': 'mrkdwn', 'text': '*Calling Principal:*\nbob'}, {'type': 'mrkdwn', 'text': '*TimeStamp:*\n2024-01-01T00:00:00Z'}]}]}".

(** The scenario without its [eventTime], and what then goes out. *)
Definition no_time : pyval :=
  PDict [("detail", PDict
    [("eventName", PStr "CloseAccount");
     ("requestParameters", PDict [("accountId", PStr "123456789012")]);
     ("userIdentity", PDict [("principalId", PStr "AIDAEXAMPLE:bob")])])].

Definition no_time_message : string :=
  "CloseAccount action has been made for Account 123456789012" ++ nl
  ++ nl
  ++ "Action: CloseAccount " ++ nl
  ++ "   Target Account: 123456789012" ++ nl
  ++ "   Calling Principal: bob " ++ nl
  ++ "   TimeStamp: None".

Definition no_time_body_text : string :=
  Wire.quotes "{'blocks': [{'type': 'header', 'text': {'type': 'plain_text', 'text': 'AWS CloseAccount Notification'}}, {'type': 'section', 'fields': [{'type': 'mrkdwn', 'text': '*Action:*\nCloseAccount'}, {'type': 'mrkdwn', 'text': '*Target Account:*\n123456789012'}, {'type': 'mrkdwn', 'text': '*Calling Principal:*\nbob'}, {'type': 'mrkdwn', 'text': '*TimeStamp:*\nNone'}]}]}".

(** The scenario with the identifier of the specification's example. *)
Definition alice_message : string :=
  "CloseAccount action has been made for Account 123456789012" ++ nl
  ++ nl
  ++ "Action: CloseAccount " ++ nl
  ++ "   Target Account: 123456789012" ++ nl
  ++ "   Calling Principal: alice " ++ nl
  ++ "   TimeStamp: 2024-01-01T00:00:00Z".

Definition no_name : pyval :=
  PDict [("detail", PDict [("eventTime", PStr "2024-01-01T00:00:00Z")])].

Definition up : world := fun _ _ => Ret "<HTTPResponse>".

Definition down : world := fun _ _ => Raise (ExternalError "Connection refused").

End Sample.

(** Every character of the text is printable ASCII. *)
Definition ascii_only (s : string) : bool :=
  forallb Json.ascii_plain (list_ascii_of_string s).

(** A reader for what [Json.escape] writes, used to show that the escaping
    loses nothing: it reads an escaped text up to its closing quote and
    gives the text and what follows the quote. *)
Module Reader.

Definition unhex (c : ascii) : option N :=
  let n := N_of_ascii c in
  if ((48 <=? n) && (n <=? 57))%N then Some (n - 48)%N
  else if ((97 <=? n) && (n <=? 102))%N then Some (n - 87)%N
  else None.

Definition unescape (c : ascii) : option ascii :=
  if Ascii.eqb c Py.dquote then Some Py.dquote
  else if Ascii.eqb c Py.backslash then Some Py.backslash
  else if Ascii.eqb c "n" then Some "010"%char
  else if Ascii.eqb c "r" then Some "013"%char
  else if Ascii.eqb c "t" then Some "009"%char
  else if Ascii.eqb c "b" then Some "008"%char
  else if Ascii.eqb c "f" then Some "012"%char
  else None.

Fixpoint read (s : string) : option (string * string) :=
  match s with
  | EmptyString => None
  | String c rest =>
      if Ascii.eqb c Py.dquote then Some (EmptyString, rest)
      else if Ascii.eqb c Py.backslash then
        match rest with
        | String e rest' =>
            if Ascii.eqb e "u" then
              match rest' with
              | String _ (String _ (String high (String low rest''))) =>
                  match unhex high, unhex low, read rest'' with
                  | Some h, Some l, Some (text, after) =>
                      Some (String (ascii_of_N (16 * h + l)) text, after)
                  | _, _, _ => None
                  end
              | _ => None
              end
            else
              match unescape e, read rest' with
              | Some c', Some (text, after) => Some (String c' text, after)
              | _, _ => None
              end
        | EmptyString => None
        end
      else
        match read rest with
        | Some (text, after) => Some (String c text, after)
        | None => None
        end
  end.

End Reader.

(** ** How the computations unfold *)

Section Monad_laws.
Context {A B : Type}.

Lemma bind_lift_Ret (a : A) (k : A -> M B) past :
  bind (lift (Ret a)) k past = k a past.
Proof.
  unfold bind, lift. rewrite app_nil_r. destruct (k a past); reflexivity.
Qed.

Lemma bind_lift_Raise e (k : A -> M B) past :
  bind (lift (Raise e)) k past = (Raise e, []).
Proof. reflexivity. Qed.

Lemma bind_emit a (k : unit -> M B) past :
  bind (emit a) k past =
  (fst (k tt (past ++ [a])%list), a :: snd (k tt (past ++ [a])%list)).
Proof.
  unfold bind, emit. destruct (k tt _); reflexivity.
Qed.

Lemma bind_Ret_at (m : M A) (a : A) (k : A -> M B) past :
  fst (m past) = Ret a ->
  bind m k past =
  (fst (k a (past ++ snd (m past))%list),
   (snd (m past) ++ snd (k a (past ++ snd (m past))%list))%list).
Proof.
  unfold bind. destruct (m past) as [r done]. cbn [fst snd]. intros ->.
  destruct (k a _); reflexivity.
Qed.

End Monad_laws.

(** *** The two senders *)

Lemma send_sns_notification_eq cfg w d past :
  send_sns_notification cfg w d past =
  (Ret tt,
   match sns_subject d, sns_message d with
   | Ret s, Ret m =>
       let p := Publish (SNS_TOPIC_ARN cfg) s m in
       [p; match w past p, sns_sent_log d with
           | Ret _, Ret l => Log INFO l
           | Ret _, Raise e | Raise e, _ => sns_failed_log e
           end]
   | Raise e, _ | Ret _, Raise e => [sns_failed_log e]
   end).
Proof.
  unfold send_sns_notification, try_except, bind, lift, call, emit, sns_failed_log.
  destruct (sns_subject d); [|reflexivity].
  destruct (sns_message d); [|reflexivity].
  cbn [app]. rewrite !app_nil_r.
  destruct (w past _); [|reflexivity].
  destruct (sns_sent_log d); reflexivity.
Qed.

Lemma send_slack_notification_eq cfg w d past :
  send_slack_notification cfg w d past =
  match slack_blocks d with
  | Ret blocks =>
      let r := Request "POST" (SLACK_ENDPOINT cfg)
                 [("Content-Type", "application/json")] (Json.dumps blocks) in
      (Ret tt, [r; slack_result_log w past r])
  | Raise e => (Raise e, [])
  end.
Proof.
  unfold send_slack_notification, try_except, bind, lift, call, emit,
    slack_result_log, slack_failed_log.
  destruct (slack_blocks d); [|reflexivity].
  cbn [app]. rewrite !app_nil_r.
  destruct (w past _); reflexivity.
Qed.

(** *** The handler *)

Lemma lambda_handler_eq cfg w event past :
  lambda_handler cfg w event past =
  match Py.getitem event "detail" with
  | Raise e => (Raise e, [])
  | Ret d =>
      match Py.getitem d "eventName" with
      | Raise e => (Raise e, [])
      | Ret name =>
          if Py.in_strs name ["CloseAccount"; "RemoveAccountFromOrganization"] then
            match Py.getitem d "requestParameters" with
            | Raise e => (Raise e, [])
            | Ret rp =>
                match Py.getitem rp "accountId" with
                | Raise e => (Raise e, [])
                | Ret account =>
                    let l1 := received_logs (Py.str name) account in
                    let t1 := snd (send_sns_notification cfg w d (past ++ l1)%list) in
                    if SLACK_NOTIFICATION cfg then
                      let l2 := (l1 ++ t1 ++ [slack_log (Py.str name)])%list in
                      let r2 := send_slack_notification cfg w d (past ++ l2)%list in
                      (fst r2, (l2 ++ snd r2)%list)
                    else (Ret tt, (l1 ++ t1)%list)
                end
            end
          else (Ret tt, [ignored_log])
      end
  end.
Proof.
  unfold lambda_handler, received_logs, slack_log, ignored_log.
  destruct (Py.getitem event "detail") as [d|e]; [|reflexivity].
  rewrite bind_lift_Ret.
  destruct (Py.getitem d "eventName") as [name|e] eqn:Hn; [|reflexivity].
  rewrite bind_lift_Ret.
  destruct (Py.in_strs name _); [|reflexivity].
  rewrite bind_lift_Ret.
  destruct (Py.getitem d "requestParameters") as [rp|e]; [|reflexivity].
  rewrite bind_lift_Ret.
  destruct (Py.getitem rp "accountId") as [account|e]; [|reflexivity].
  rewrite bind_lift_Ret, bind_emit, bind_lift_Ret, bind_emit.
  cbn zeta. cbn [fst snd].
  rewrite <- !app_assoc. cbn [app].
  rewrite (bind_Ret_at _ tt) by (rewrite send_sns_notification_eq; reflexivity).
  destruct (SLACK_NOTIFICATION cfg).
  - rewrite bind_lift_Ret, bind_emit. cbn [fst snd].
    rewrite <- !app_assoc. reflexivity.
  - cbn [ret fst snd]. rewrite app_nil_r. reflexivity.
Qed.

(** *** Values and paths *)

Lemma getitem_get v k x : Py.getitem v k = Ret x -> Py.get v k = Ret x.
Proof.
  destruct v; cbn; try discriminate.
  destruct (Py.lookup k l); congruence.
Qed.

Lemma getitem_dict v k x : Py.getitem v k = Ret x -> exists kvs, v = PDict kvs.
Proof. destruct v; cbn; try discriminate. eauto. Qed.

Lemma get_dict_total kvs k : exists x, Py.get (PDict kvs) k = Ret x.
Proof. cbn. destruct (Py.lookup k kvs); eauto. Qed.

Lemma at_path_cons v k rest :
  at_path v (k :: rest) =
  match Py.getitem v k with
  | Ret x => at_path x rest
  | Raise _ => None
  end.
Proof.
  destruct v; try reflexivity. cbn.
  destruct (Py.lookup k l); reflexivity.
Qed.

Lemma at_path_step v k rest y :
  at_path v (k :: rest) = Some y ->
  exists x, Py.getitem v k = Ret x /\ at_path x rest = Some y.
Proof.
  rewrite at_path_cons. destruct (Py.getitem v k); [eauto | discriminate].
Qed.

Lemma at_path_one v k x : at_path v [k] = Some x <-> Py.getitem v k = Ret x.
Proof.
  rewrite at_path_cons. destruct (Py.getitem v k); cbn; split; congruence.
Qed.

Lemma in_strs_closure name :
  Py.in_strs name ["CloseAccount"; "RemoveAccountFromOrganization"] = true ->
  exists n, name = PStr n /\ (n = "CloseAccount" \/ n = "RemoveAccountFromOrganization").
Proof.
  destruct name; cbn; try discriminate.
  intros H. exists s. split; [reflexivity|].
  destruct (String.eqb_spec s "CloseAccount"); [now left|].
  destruct (String.eqb_spec s "RemoveAccountFromOrganization"); [now right|].
  discriminate.
Qed.

Lemma closure_in_strs n :
  n = "CloseAccount" \/ n = "RemoveAccountFromOrganization" ->
  Py.in_strs (PStr n) ["CloseAccount"; "RemoveAccountFromOrganization"] = true.
Proof. intros [-> | ->]; reflexivity. Qed.

(** The filter of the handler is [closure_event]. *)
Lemma closure_event_filter event :
  closure_event event = true <->
  exists d n, Py.getitem event "detail" = Ret d /\
              Py.getitem d "eventName" = Ret (PStr n) /\
              (n = "CloseAccount" \/ n = "RemoveAccountFromOrganization").
Proof.
  unfold closure_event. rewrite at_path_cons. split.
  - destruct (Py.getitem event "detail") as [d|]; [|discriminate].
    rewrite at_path_cons.
    destruct (Py.getitem d "eventName") as [name|] eqn:Hn; [|discriminate].
    cbn [at_path]. intros H. exists d.
    destruct (in_strs_closure name) as (n & -> & Hcl).
    + destruct name; try discriminate. cbn. now rewrite orb_false_r.
    + eauto.
  - intros (d & n & -> & Hn & Hcl). rewrite at_path_cons, Hn. cbn [at_path].
    destruct Hcl as [-> | ->]; reflexivity.
Qed.

Lemma dispatching_closure event d n account :
  dispatching event d n account ->
  closure_event event = true /\
  at_path event ["detail"] = Some d /\
  at_path event ["detail"; "eventName"] = Some (PStr n) /\
  at_path event ["detail"; "requestParameters"; "accountId"] = Some account.
Proof.
  intros (Hd & Hn & Hcl & rp & Hrp & Ha). split.
  - apply closure_event_filter. eauto.
  - rewrite !(at_path_cons event), Hd, !(at_path_cons d), Hn, Hrp, at_path_cons, Ha.
    repeat split.
Qed.

Lemma closure_dispatching event account :
  closure_event event = true ->
  at_path event ["detail"; "requestParameters"; "accountId"] = Some account ->
  exists d n, dispatching event d n account.
Proof.
  intros Hc Ha. apply closure_event_filter in Hc as (d & n & Hd & Hn & Hcl).
  apply at_path_step in Ha as (d' & Hd' & Ha).
  assert (d' = d) as -> by congruence.
  apply at_path_step in Ha as (rp & Hrp & Ha).
  apply at_path_one in Ha.
  exists d, n. unfold dispatching. eauto 10.
Qed.

Lemma dispatching_fields event d n account :
  dispatching event d n account ->
  eventName d = Ret (PStr n) /\ accountId d = Ret account /\
  exists time, eventTime d = Ret time.
Proof.
  intros (Hd & Hn & _ & rp & Hrp & Ha).
  unfold eventName, accountId, eventTime.
  rewrite (getitem_get _ _ _ Hn), (getitem_get _ _ _ Hrp). cbn.
  rewrite (getitem_get _ _ _ Ha).
  destruct (getitem_dict _ _ _ Hn) as [kvs ->].
  repeat split. apply get_dict_total.
Qed.

(** *** Splitting *)

Lemma split_on_nonempty sep s : Py.split_on sep s <> [].
Proof.
  destruct s as [|c rest]; cbn; [discriminate|].
  destruct (Ascii.eqb c sep); [discriminate|].
  destruct (Py.split_on sep rest); discriminate.
Qed.

Lemma contains_cons c c' s :
  Py.contains c (String c' s) = Ascii.eqb c c' || Py.contains c s.
Proof. reflexivity. Qed.

Lemma contains_app c s t :
  Py.contains c (s ++ t) = Py.contains c s || Py.contains c t.
Proof.
  induction s as [|c' s IH]; [reflexivity|].
  cbn [String.append]. rewrite !contains_cons, IH. apply orb_assoc.
Qed.

(** A string without the separator is its own single piece. *)
Lemma split_on_absent sep s :
  Py.contains sep s = false -> Py.split_on sep s = [s].
Proof.
  induction s as [|c rest IH]; [reflexivity|].
  rewrite contains_cons. intros H. apply orb_false_elim in H as [Hc Hrest].
  cbn. rewrite Ascii.eqb_sym, Hc, (IH Hrest). reflexivity.
Qed.

(** The first piece ends at the first separator; the rest is split on. *)
Lemma split_on_first sep s t :
  Py.contains sep s = false ->
  Py.split_on sep (s ++ String sep t) = s :: Py.split_on sep t.
Proof.
  induction s as [|c rest IH]; intros H.
  - cbn. now rewrite Ascii.eqb_refl.
  - rewrite contains_cons in H. apply orb_false_elim in H as [Hc Hrest].
    cbn. rewrite Ascii.eqb_sym, Hc, (IH Hrest). reflexivity.
Qed.

(** A string with a separator has a second piece. *)
Lemma split_on_present sep s :
  Py.contains sep s = true ->
  exists first second more, Py.split_on sep s = first :: second :: more.
Proof.
  induction s as [|c rest IH]; [discriminate|].
  rewrite contains_cons. cbn. rewrite (Ascii.eqb_sym sep c).
  destruct (Ascii.eqb c sep); cbn [orb].
  - intros _. destruct (Py.split_on sep rest) as [|x xs] eqn:E.
    + now apply split_on_nonempty in E.
    + eauto.
  - intros H. destruct (IH H) as (a & b & m & ->). eauto.
Qed.

Lemma concat_cons2 sep (a b : string) l :
  String.concat sep (a :: b :: l) = a ++ sep ++ String.concat sep (b :: l).
Proof. reflexivity. Qed.

(** Joining the pieces with the separator gives the string back. *)
Lemma join_split_on sep s :
  Py.join (String sep EmptyString) (Py.split_on sep s) = s.
Proof.
  unfold Py.join. induction s as [|c rest IH]; [reflexivity|].
  cbn [Py.split_on].
  destruct (Py.split_on sep rest) as [|x xs] eqn:E;
    [now apply split_on_nonempty in E|].
  destruct (Ascii.eqb_spec c sep) as [->|].
  - rewrite concat_cons2, IH. reflexivity.
  - destruct xs as [|y ys].
    + cbn in *. now rewrite IH.
    + rewrite <- IH, !concat_cons2. reflexivity.
Qed.

(** What [principal] computes on a detail whose [principalId] is a string. *)
Lemma principal_of_id d pid :
  at_path d ["userIdentity"; "principalId"] = Some (PStr pid) ->
  principal d = Py.index (Py.split_on ":" pid) 1.
Proof.
  intros H. apply at_path_step in H as (ui & Hui & H). apply at_path_one in H.
  unfold principal. rewrite (getitem_get _ _ _ Hui). cbn [res_bind].
  rewrite (getitem_get _ _ _ H). reflexivity.
Qed.

Lemma principal_second_segment d pid :
  at_path d ["userIdentity"; "principalId"] = Some (PStr pid) ->
  Py.contains ":" pid = true ->
  exists who, nth_error (Py.split_on ":" pid) 1 = Some who /\ principal d = Ret who.
Proof.
  intros H Hc. rewrite (principal_of_id _ _ H).
  destruct (split_on_present _ _ Hc) as (a & b & m & E).
  exists b. unfold Py.index. rewrite E. split; reflexivity.
Qed.

Lemma principal_no_segment d pid :
  at_path d ["userIdentity"; "principalId"] = Some (PStr pid) ->
  Py.contains ":" pid = false ->
  principal d = Raise IndexError.
Proof.
  intros H Hc. rewrite (principal_of_id _ _ H), (split_on_absent _ _ Hc). reflexivity.
Qed.

(** *** The three kinds of run *)

(** Every run of the handler fails before any action, or ignores the event,
    or has passed the filter and the first log line. *)
Lemma lambda_handler_cases cfg w event past :
  (exists e, lambda_handler cfg w event past = (Raise e, [])) \/
  (closure_event event = false /\
   lambda_handler cfg w event past = (Ret tt, [ignored_log])) \/
  (exists d n account, dispatching event d n account).
Proof.
  rewrite lambda_handler_eq.
  destruct (Py.getitem event "detail") as [d|e] eqn:Hd; [|eauto].
  destruct (Py.getitem d "eventName") as [name|e] eqn:Hn; [|eauto].
  destruct (Py.in_strs name _) eqn:Hin.
  - apply in_strs_closure in Hin as (n & -> & Hn').
    destruct (Py.getitem d "requestParameters") as [rp|e] eqn:Hrp; [|eauto].
    destruct (Py.getitem rp "accountId") as [account|e] eqn:Ha; [|eauto].
    right; right. exists d, n, account. unfold dispatching. eauto 10.
  - right; left. split; [|reflexivity].
    destruct (closure_event event) eqn:Hc; [|reflexivity].
    apply closure_event_filter in Hc as (d' & n & Hd' & Hn' & Hcl).
    assert (d' = d) as -> by congruence.
    assert (name = PStr n) as -> by congruence.
    now rewrite (closure_in_strs _ Hcl) in Hin.
Qed.

(** A run that dispatches, when the principal can be extracted. *)
Lemma lambda_handler_notified cfg w event past d n account who time :
  dispatching event d n account ->
  principal d = Ret who -> eventTime d = Ret time ->
  let p := publish_of cfg n account who time in
  let r := request_of cfg n account who time in
  let sns := [p; sns_result_log w (past ++ received_logs n account)%list p n account] in
  lambda_handler cfg w event past =
  (Ret tt,
   (received_logs n account ++ sns ++
    if SLACK_NOTIFICATION cfg
    then [slack_log n; r;
          slack_result_log w
            (past ++ received_logs n account ++ sns ++ [slack_log n])%list r]
    else [])%list).
Proof.
  intros D Hp Ht.
  destruct (dispatching_fields _ _ _ _ D) as (Hn & Ha & _).
  destruct D as (Hd & Hn' & Hcl & rp & Hrp & Hacc).
  rewrite lambda_handler_eq, Hd, Hn', (closure_in_strs _ Hcl), Hrp, Hacc.
  cbn zeta. rewrite send_sns_notification_eq, send_slack_notification_eq.
  unfold sns_subject, sns_message, sns_sent_log, slack_blocks.
  rewrite Hn, Ha, Hp, Ht. cbn [res_bind snd fst Py.str].
  unfold sns_result_log, publish_of, request_of.
  destruct (SLACK_NOTIFICATION cfg); [|reflexivity].
  cbn [fst snd app].
  destruct (w _ (Publish _ _ _)); reflexivity.
Qed.

(** A run that dispatches, when the principal cannot be extracted. *)
Lemma lambda_handler_unformatted cfg w event past d n account e :
  dispatching event d n account ->
  principal d = Raise e ->
  lambda_handler cfg w event past =
  (if SLACK_NOTIFICATION cfg then Raise e else Ret tt,
   (received_logs n account ++ [sns_failed_log e]
    ++ if SLACK_NOTIFICATION cfg then [slack_log n] else [])%list).
Proof.
  intros D Hp.
  destruct (dispatching_fields _ _ _ _ D) as (Hn & Ha & _).
  destruct D as (Hd & Hn' & Hcl & rp & Hrp & Hacc).
  rewrite lambda_handler_eq, Hd, Hn', (closure_in_strs _ Hcl), Hrp, Hacc.
  cbn zeta. rewrite send_sns_notification_eq, send_slack_notification_eq.
  unfold sns_subject, sns_message, sns_sent_log, slack_blocks.
  rewrite Hn, Ha, Hp. cbn [res_bind snd fst Py.str].
  destruct (SLACK_NOTIFICATION cfg); reflexivity.
Qed.

(** The actions of a run, whatever its kind: nothing, the one log line of an
    ignored event, or the log lines around at most one publish and at most
    one request. *)
Lemma lambda_handler_trace cfg w event past :
  snd (lambda_handler cfg w event past) = [] \/
  snd (lambda_handler cfg w event past) = [ignored_log] \/
  exists d n account,
    dispatching event d n account /\
    ((exists e, principal d = Raise e /\
        lambda_handler cfg w event past =
        (if SLACK_NOTIFICATION cfg then Raise e else Ret tt,
         (received_logs n account ++ [sns_failed_log e]
          ++ if SLACK_NOTIFICATION cfg then [slack_log n] else [])%list)) \/
     (exists who time l1 l2,
        principal d = Ret who /\ eventTime d = Ret time /\
        lambda_handler cfg w event past =
        (Ret tt,
         (received_logs n account
          ++ [publish_of cfg n account who time; Log (fst l1) (snd l1)]
          ++ if SLACK_NOTIFICATION cfg
             then [slack_log n; request_of cfg n account who time; Log (fst l2) (snd l2)]
             else [])%list))).
Proof.
  destruct (lambda_handler_cases cfg w event past) as [[e ->] | [[_ ->] | (d & n & account & D)]];
    [now left | now right; left |].
  right; right. exists d, n, account. split; [exact D|].
  destruct (principal d) as [who|e] eqn:Hp.
  - right. destruct (dispatching_fields _ _ _ _ D) as (_ & _ & time & Ht).
    pose proof (lambda_handler_notified cfg w event past d n account who time D Hp Ht) as H.
    cbn zeta in H.
    assert (Hl1 : forall h p, exists l, sns_result_log w h p n account = Log (fst l) (snd l)).
    { intros h p. unfold sns_result_log, sns_failed_log.
      destruct (w h p); eexists (_, _); reflexivity. }
    assert (Hl2 : forall h r, exists l, slack_result_log w h r = Log (fst l) (snd l)).
    { intros h r. unfold slack_result_log, slack_failed_log.
      destruct (w h r); eexists (_, _); reflexivity. }
    destruct (Hl1 (past ++ received_logs n account)%list (publish_of cfg n account who time))
      as [l1 E1].
    rewrite E1 in H.
    destruct (Hl2 (past ++ received_logs n account
                   ++ [publish_of cfg n account who time; Log (fst l1) (snd l1)]
                   ++ [slack_log n])%list (request_of cfg n account who time)) as [l2 E2].
    rewrite E2 in H.
    exists who, time, l1, l2. auto.
  - left. exists e. split; [reflexivity|].
    now apply (lambda_handler_unformatted cfg w event past d).
Qed.

Lemma sns_result_log_is_log w past p n account :
  exists lvl msg, sns_result_log w past p n account = Log lvl msg.
Proof. unfold sns_result_log, sns_failed_log. destruct (w past p); eauto. Qed.

Lemma slack_result_log_is_log w past r :
  exists lvl msg, slack_result_log w past r = Log lvl msg.
Proof. unfold slack_result_log, slack_failed_log. destruct (w past r); eauto. Qed.

Lemma append_assoc (a b c : string) : (a ++ b) ++ c = a ++ (b ++ c).
Proof. induction a; cbn; congruence. Qed.

(** The message, line by line: a heading, a blank line, then the action,
    the account, the principal and the time, when none of them holds a line
    feed. *)
Lemma f_message_lines name account name' account' who time :
  Py.contains "010" name = false -> Py.contains "010" account = false ->
  Py.contains "010" name' = false -> Py.contains "010" account' = false ->
  Py.contains "010" who = false -> Py.contains "010" time = false ->
  Py.split_on "010" (f_message name account name' account' who time) =
  [name ++ " action has been made for Account " ++ account;
   EmptyString;
   "Action: " ++ name' ++ " ";
   "   Target Account: " ++ account';
   "   Calling Principal: " ++ who ++ " ";
   "   TimeStamp: " ++ time].
Proof.
  intros Hn Ha Hn' Ha' Hw Ht.
  assert (E : f_message name account name' account' who time =
              (name ++ " action has been made for Account " ++ account)
              ++ String "010" (EmptyString
              ++ String "010" (("Action: " ++ name' ++ " ")
              ++ String "010" (("   Target Account: " ++ account')
              ++ String "010" (("   Calling Principal: " ++ who ++ " ")
              ++ String "010" ("   TimeStamp: " ++ time)))))).
  { unfold f_message, nl. rewrite !append_assoc. cbn [String.append]. reflexivity. }
  rewrite E.
  repeat (rewrite split_on_first
            by (rewrite ?contains_app, ?Hn, ?Ha, ?Hn', ?Ha', ?Hw, ?Ht; reflexivity)).
  rewrite split_on_absent
    by (rewrite ?contains_app, ?Ht; reflexivity).
  reflexivity.
Qed.

Lemma detail_path event d rest :
  Py.getitem event "detail" = Ret d ->
  at_path event ("detail" :: rest) = at_path d rest.
Proof. intros H. now rewrite at_path_cons, H. Qed.

Lemma principal_inv d who :
  principal d = Ret who ->
  exists pid, at_path d ["userIdentity"; "principalId"] = Some (PStr pid) /\
              nth_error (Py.split_on ":" pid) 1 = Some who.
Proof.
  unfold principal. intros H.
  destruct d; try discriminate. cbn in H |- *.
  destruct (Py.lookup "userIdentity" l) as [ui|]; [|discriminate].
  destruct ui; try discriminate. cbn in H |- *.
  destruct (Py.lookup "principalId" l0) as [pid|]; [|discriminate].
  destruct pid; try discriminate. cbn in H.
  exists s. split; [reflexivity|].
  unfold Py.index in H. cbn in H.
  destruct (Py.split_on ":" s) as [|? [|? ?]]; congruence.
Qed.

(** A publish or a request in a run belongs to a closure event, and is built
    from its four fields; a request comes after the publish of the same
    fields. *)
Lemma dispatched_run cfg w event past a :
  In a (snd (lambda_handler cfg w event past)) -> is_dispatch a = true ->
  exists d n account pid who time,
    at_path event ["detail"] = Some d /\
    at_path event ["detail"; "eventName"] = Some (PStr n) /\
    (n = "CloseAccount" \/ n = "RemoveAccountFromOrganization") /\
    at_path event ["detail"; "requestParameters"; "accountId"] = Some account /\
    at_path event ["detail"; "userIdentity"; "principalId"] = Some (PStr pid) /\
    nth_error (Py.split_on ":" pid) 1 = Some who /\
    Py.get d "eventTime" = Ret time /\
    In (publish_of cfg n account who time) (snd (lambda_handler cfg w event past)) /\
    (a = publish_of cfg n account who time \/
     SLACK_NOTIFICATION cfg = true /\ a = request_of cfg n account who time).
Proof.
  intros Hin Ha.
  destruct (lambda_handler_trace cfg w event past)
    as [E | [E | (d & n & account & D & [(e & _ & E) | (who & time & l1 & l2 & Hp & Ht & E)])]];
    rewrite E in Hin; cbn [snd] in Hin.
  - destruct Hin.
  - destruct Hin as [<-|[]]. discriminate.
  - exfalso. apply in_app_or in Hin as [Hin|Hin].
    + destruct Hin as [<-|[<-|[]]]; discriminate.
    + destruct (SLACK_NOTIFICATION cfg); cbn in Hin;
        repeat (destruct Hin as [<-|Hin]; [discriminate|]); destruct Hin.
  - destruct (principal_inv _ _ Hp) as (pid & Hpid & Hseg).
    destruct (dispatching_closure _ _ _ _ D) as (_ & Hd & Hn & Hacc).
    pose proof D as (Hd' & _ & Hcl & _).
    rewrite <- (detail_path _ _ _ Hd') in Hpid.
    assert (Ht' : Py.get d "eventTime" = Ret time) by exact Ht.
    exists d, n, account, pid, who, time.
    rewrite E. cbn [snd].
    repeat (split; [assumption|]).
    split; [apply in_or_app; right; now left|].
    apply in_app_or in Hin as [Hin|Hin].
    + destruct Hin as [<-|[<-|[]]]; discriminate.
    + destruct Hin as [<-|[<-|Hin]]; [now left | discriminate |].
      destruct (SLACK_NOTIFICATION cfg); [|destruct Hin].
      destruct Hin as [<-|[<-|[<-|[]]]]; try discriminate. now right.
Qed.

Lemma closure_name_one_line n :
  n = "CloseAccount" \/ n = "RemoveAccountFromOrganization" ->
  Py.contains "010" n = false.
Proof. intros [-> | ->]; reflexivity. Qed.

(** *** The texts that go out *)

Lemma escape_app s t : Json.escape (s ++ t) = Json.escape s ++ Json.escape t.
Proof.
  induction s as [|c s IH]; [reflexivity|].
  cbn [String.append Json.escape]. now rewrite IH, append_assoc.
Qed.

(** JSON writes a plain text as it is. *)
Lemma escape_plain s : Wire.plain s = true -> Json.escape s = s.
Proof.
  unfold Wire.plain. induction s as [|c s IH]; [reflexivity|].
  cbn [list_ascii_of_string forallb Json.escape]. intros H.
  apply andb_prop in H as [Hc Hs]. apply andb_prop in Hc as [Hc Hb].
  apply andb_prop in Hc as [Hp Hq].
  apply negb_true_iff in Hb, Hq. rewrite Hq, Hb.
  replace (Ascii.eqb c "010") with false; [replace (Ascii.eqb c "013") with false;
    [replace (Ascii.eqb c "009") with false; [replace (Ascii.eqb c "008") with false;
      [replace (Ascii.eqb c "012") with false|]|]|]|];
    try (symmetry; apply Ascii.eqb_neq; intros ->; discriminate).
  rewrite Hp, (IH Hs). reflexivity.
Qed.

(** The message of the publish, character by character. *)
Lemma f_message_text name account who time :
  f_message name account name account who time =
  name ++ " action has been made for Account " ++ account ++ nl ++ nl
  ++ "Action: " ++ name ++ " " ++ nl
  ++ "   Target Account: " ++ account ++ nl
  ++ "   Calling Principal: " ++ who ++ " " ++ nl
  ++ "   TimeStamp: " ++ time.
Proof. reflexivity. Qed.

(** The dict literal of the Slack sender is the document of the interface
    description. *)
Lemma blocks_literal_document name account who time :
  blocks_literal name name account who time =
  Spec.block_document ("AWS " ++ name ++ " Notification")
    ["*Action:*" ++ nl ++ name;
     "*Target Account:*" ++ nl ++ account;
     "*Calling Principal:*" ++ nl ++ who;
     "*TimeStamp:*" ++ nl ++ time].
Proof. reflexivity. Qed.

(** [json.dumps] of the dict literal, character by character. *)
Lemma dumps_blocks_text name account who time :
  Json.dumps (blocks_literal name name account who time) =
  Wire.body (Json.escape ("AWS " ++ name ++ " Notification")) (Json.escape name)
    (Json.escape account) (Json.escape who) (Json.escape time).
Proof.
  unfold blocks_literal, f_title, Wire.body, Json.quoted, nl.
  cbn [Json.dumps map Py.join String.concat fst snd].
  rewrite !escape_app, !append_assoc. cbn.
  rewrite !escape_app, !append_assoc. cbn. reflexivity.
Qed.

Lemma closure_name_plain n :
  n = "CloseAccount" \/ n = "RemoveAccountFromOrganization" ->
  Json.escape ("AWS " ++ n ++ " Notification") = "AWS " ++ n ++ " Notification" /\
  Json.escape n = n.
Proof. intros [-> | ->]; split; reflexivity. Qed.

(** The decorated handler logs the event and then runs the function. *)
Lemma lambda_handler_decorated_eq cfg w event past :
  lambda_handler_decorated cfg w event past =
  (fst (lambda_handler cfg w event (past ++ [LogValue INFO event])%list),
   LogValue INFO event
   :: snd (lambda_handler cfg w event (past ++ [LogValue INFO event])%list)).
Proof.
  unfold lambda_handler_decorated, capture_lambda_handler, inject_lambda_context.
  apply bind_emit.
Qed.

Example sample_body_text : Sample.close_account_body = Sample.close_account_body_text.
Proof. reflexivity. Qed.

(** *** The configuration *)

(** Without [SLACK_NOTIFICATION] in the environment the chat flag is off. *)
Lemma load_config_default env :
  environ_get env "SLACK_NOTIFICATION" = None ->
  exists cfg, load_config env = Ret cfg /\ SLACK_NOTIFICATION cfg = false.
Proof.
  intros H. unfold load_config. rewrite H. cbn. eauto.
Qed.

(** ** The properties *)

(** C1, as stated, fails: a closure event without [requestParameters] stops
    the handler at its first log line, before any dispatch; and a well-formed
    closure event makes no request to the webhook when the chat flag is
    off. *)
Lemma closure_event_without_dispatch :
  closure_event Sample.no_parameters = true /\
  lambda_handler Sample.chat_on Sample.up Sample.no_parameters [] =
    (Raise (KeyError "requestParameters"), []) /\
  closure_event Sample.close_account = true /\
  existsb is_request
    (snd (lambda_handler Sample.chat_off Sample.up Sample.close_account [])) = false.
Proof. repeat split. Qed.

(** C1, amended: a publish or a request is made only for an event whose
    [detail.eventName] is exactly [CloseAccount] or
    [RemoveAccountFromOrganization]; an event with any other [eventName]
    makes the handler log that it is ignored and return normally, with no
    dispatch; and a closure event that has [requestParameters.accountId] and
    a string [userIdentity.principalId] with a colon gets one publish, and
    one request exactly when the chat flag is on, after which the handler
    returns normally. *)
Theorem dispatch_only_for_closure_events cfg w event past :
  (existsb is_dispatch (snd (lambda_handler cfg w event past)) = true ->
   closure_event event = true) /\
  (forall name,
     at_path event ["detail"; "eventName"] = Some name ->
     closure_event event = false ->
     lambda_handler cfg w event past = (Ret tt, [ignored_log])) /\
  (forall account pid,
     closure_event event = true ->
     at_path event ["detail"; "requestParameters"; "accountId"] = Some account ->
     at_path event ["detail"; "userIdentity"; "principalId"] = Some (PStr pid) ->
     Py.contains ":" pid = true ->
     fst (lambda_handler cfg w event past) = Ret tt /\
     length (filter is_publish (snd (lambda_handler cfg w event past))) = 1 /\
     length (filter is_request (snd (lambda_handler cfg w event past))) =
       if SLACK_NOTIFICATION cfg then 1 else 0).
Proof.
  split; [|split].
  - destruct (lambda_handler_trace cfg w event past)
      as [-> | [-> | (d & n & account & D & _)]]; try discriminate.
    intros _. now apply (dispatching_closure event d n account).
  - intros name Hname Hc.
    destruct (lambda_handler_cases cfg w event past)
      as [[e E] | [[_ E] | (d & n & account & D)]]; [|exact E|].
    + exfalso. rewrite lambda_handler_eq in E.
      apply at_path_step in Hname as (d & Hd & Hname). apply at_path_one in Hname.
      rewrite Hd, Hname in E.
      destruct (Py.in_strs name _) eqn:Hin; [|discriminate].
      apply in_strs_closure in Hin as (n & -> & Hcl).
      assert (closure_event event = true) by (apply closure_event_filter; eauto).
      congruence.
    + apply dispatching_closure in D as (Hc' & _). congruence.
  - intros account pid Hc Ha Hpid Hcolon.
    destruct (closure_dispatching _ _ Hc Ha) as (d & n & D).
    pose proof D as (Hd & _).
    rewrite (detail_path _ _ _ Hd) in Hpid.
    destruct (principal_second_segment _ _ Hpid Hcolon) as (who & _ & Hp).
    destruct (dispatching_fields _ _ _ _ D) as (_ & _ & time & Ht).
    rewrite (lambda_handler_notified cfg w event past d n account who time D Hp Ht).
    cbn zeta. cbn [fst snd].
    destruct (sns_result_log_is_log w (past ++ received_logs n account)%list
                (publish_of cfg n account who time) n account) as (l1 & m1 & ->).
    destruct (SLACK_NOTIFICATION cfg).
    + match goal with |- context [slack_result_log ?w ?h ?r] =>
        destruct (slack_result_log_is_log w h r) as (l2 & m2 & ->) end.
      repeat split.
    + repeat split.
Qed.

Lemma dispatch_only_for_closure_events_witness :
  lambda_handler Sample.chat_on Sample.up Sample.create_account [] = (Ret tt, [ignored_log]) /\
  fst (lambda_handler Sample.chat_on Sample.down Sample.close_account []) = Ret tt /\
  length (filter is_publish
            (snd (lambda_handler Sample.chat_on Sample.down Sample.close_account []))) = 1 /\
  length (filter is_request
            (snd (lambda_handler Sample.chat_on Sample.down Sample.close_account []))) = 1.
Proof.
  split.
  - apply (proj1 (proj2 (dispatch_only_for_closure_events
                           Sample.chat_on Sample.up Sample.create_account []))
             (PStr "CreateAccount")); reflexivity.
  - apply (proj2 (proj2 (dispatch_only_for_closure_events
                           Sample.chat_on Sample.down Sample.close_account []))
             (PStr "123456789012") "AIDAEXAMPLE:bob"); reflexivity.
Defined.

(** C2: the code at the failing input.  A [principalId] without a second
    segment is to be fatal to the invocation.  With the chat flag off it is
    not: the [IndexError] of [split(':')[1]] is raised while
    the arguments of [publish] are built, inside the [try] of
    [send_sns_notification], whose handler logs it; nothing is sent and the
    handler returns normally.  [send_slack_notification], which builds its
    blocks outside its [try], and the first log line of the handler let a
    malformed detail through as an error. *)
Lemma missing_segment_not_fatal :
  at_path Sample.no_colon ["detail"; "userIdentity"; "principalId"]
    = Some (PStr "AIDAEXAMPLE") /\
  Py.contains ":" "AIDAEXAMPLE" = false /\
  lambda_handler Sample.chat_off Sample.up Sample.no_colon [] =
    (Ret tt,
     [Log INFO "Received CloudWatch event of CloseAccount API for Account ID 123456789012";
      Log INFO "Sending SNS Notification for received event CloseAccount";
      Log EXCEPTION "Failed to send SNS notification: list index out of range"]).
Proof. repeat split. Qed.

(** What the code does for every closure event with an account whose
    [principalId] is a string without a colon: building the message and
    building the blocks both raise [IndexError]; [send_sns_notification]
    catches the error and logs it, [send_slack_notification] lets it
    through; nothing is sent, and the invocation fails exactly when the chat
    flag is on. *)
Lemma missing_segment_fails_formatting cfg w event past account pid :
  closure_event event = true ->
  at_path event ["detail"; "requestParameters"; "accountId"] = Some account ->
  at_path event ["detail"; "userIdentity"; "principalId"] = Some (PStr pid) ->
  Py.contains ":" pid = false ->
  exists d,
    at_path event ["detail"] = Some d /\
    sns_message d = Raise IndexError /\
    slack_blocks d = Raise IndexError /\
    send_sns_notification cfg w d past = (Ret tt, [sns_failed_log IndexError]) /\
    send_slack_notification cfg w d past = (Raise IndexError, []) /\
    existsb is_dispatch (snd (lambda_handler cfg w event past)) = false /\
    fst (lambda_handler cfg w event past) =
      if SLACK_NOTIFICATION cfg then Raise IndexError else Ret tt.
Proof.
  intros Hc Ha Hpid Hcolon.
  destruct (closure_dispatching _ _ Hc Ha) as (d & n & D).
  pose proof D as (Hd & _).
  rewrite (detail_path _ _ _ Hd) in Hpid.
  pose proof (principal_no_segment _ _ Hpid Hcolon) as Hp.
  destruct (dispatching_fields _ _ _ _ D) as (Hn & Hacc & _).
  assert (Hm : sns_message d = Raise IndexError).
  { unfold sns_message. now rewrite Hn, Hacc, Hp. }
  assert (Hb : slack_blocks d = Raise IndexError).
  { unfold slack_blocks. now rewrite Hn, Hacc, Hp. }
  exists d. split; [now apply at_path_one|].
  split; [exact Hm|]. split; [exact Hb|].
  rewrite send_sns_notification_eq, send_slack_notification_eq, Hm, Hb.
  unfold sns_subject. rewrite Hn. cbn [res_bind].
  rewrite (lambda_handler_unformatted cfg w event past d n account IndexError D Hp).
  repeat split. destruct (SLACK_NOTIFICATION cfg); reflexivity.
Qed.

(** C3: once the publish is attempted the handler returns normally, whatever
    the world answers.  If the publish raises, the error is logged by the SNS
    sender; with the chat flag on the request to the webhook follows all the
    same, and if that raises, the error is logged by the Slack sender.  Each
    sender returns normally once it has made its call. *)
Theorem dispatch_failures_are_swallowed cfg w event past topic subject message :
  In (Publish topic subject message) (snd (lambda_handler cfg w event past)) ->
  fst (lambda_handler cfg w event past) = Ret tt /\
  (exists before after,
     snd (lambda_handler cfg w event past)
       = (before ++ Publish topic subject message :: after)%list /\
     (forall e, w (past ++ before)%list (Publish topic subject message) = Raise e ->
                In (sns_failed_log e) after) /\
     (SLACK_NOTIFICATION cfg = true ->
      exists body between rest,
        let request := Request "POST" (SLACK_ENDPOINT cfg)
                         [("Content-Type", "application/json")] body in
        after = (between ++ request :: rest)%list /\
        forall e,
          w (past ++ before ++ Publish topic subject message :: between)%list request
            = Raise e ->
          In (slack_failed_log e) rest)) /\
  (forall v h, fst (send_sns_notification cfg w v h) = Ret tt) /\
  (forall v h, existsb is_request (snd (send_slack_notification cfg w v h)) = true ->
               fst (send_slack_notification cfg w v h) = Ret tt).
Proof.
  intros Hin.
  assert (Hsenders :
    (forall v h, fst (send_sns_notification cfg w v h) = Ret tt) /\
    (forall v h, existsb is_request (snd (send_slack_notification cfg w v h)) = true ->
                 fst (send_slack_notification cfg w v h) = Ret tt)).
  { split; intros v h.
    - now rewrite send_sns_notification_eq.
    - rewrite send_slack_notification_eq. destruct (slack_blocks v); [reflexivity|discriminate]. }
  destruct (lambda_handler_cases cfg w event past)
    as [[e E] | [[_ E] | (d & n & account & D)]].
  - rewrite E in Hin. destruct Hin.
  - rewrite E in Hin. destruct Hin as [Hin|[]]. discriminate.
  - destruct (principal d) as [who|e] eqn:Hp.
    + destruct (dispatching_fields _ _ _ _ D) as (_ & _ & time & Ht).
      pose proof (lambda_handler_notified cfg w event past d n account who time D Hp Ht) as E.
      cbn zeta in E. rewrite E in *. cbn [fst snd] in *.
      assert (Hpub : Publish topic subject message = publish_of cfg n account who time).
      { destruct (sns_result_log_is_log w (past ++ received_logs n account)%list
                    (publish_of cfg n account who time) n account) as (l1 & m1 & E1).
        rewrite E1 in Hin.
        apply in_app_or in Hin as [Hin|Hin].
        - cbn in Hin. intuition discriminate.
        - destruct Hin as [Hin|[Hin|Hin]]; [now symmetry | discriminate |].
          destruct (SLACK_NOTIFICATION cfg); [|destruct Hin].
          match type of Hin with context [slack_result_log ?w ?h ?r] =>
            destruct (slack_result_log_is_log w h r) as (l2 & m2 & E2) end.
          rewrite E2 in Hin. cbn in Hin. unfold slack_log in Hin.
          intuition discriminate. }
      rewrite Hpub. split; [reflexivity|]. split; [|exact Hsenders].
      exists (received_logs n account). eexists. split; [reflexivity|]. split.
      * intros e He. left. unfold sns_result_log. now rewrite He.
      * intros Hon. rewrite Hon.
        eexists _, [_; slack_log n], _. cbn zeta. split; [reflexivity|].
        intros e He. left. unfold slack_result_log, request_of, received_logs in *.
        cbn [app] in He |- *. now rewrite He.
    + rewrite (lambda_handler_unformatted cfg w event past d n account e D Hp) in Hin.
      cbn [snd] in Hin. exfalso.
      apply in_app_or in Hin as [Hin|Hin]; [cbn in Hin; intuition discriminate|].
      destruct (SLACK_NOTIFICATION cfg); cbn in Hin; unfold slack_log in Hin;
        intuition discriminate.
Qed.

Lemma dispatch_failures_are_swallowed_witness :
  fst (lambda_handler Sample.chat_on Sample.down Sample.close_account []) = Ret tt.
Proof.
  refine (proj1 (dispatch_failures_are_swallowed Sample.chat_on Sample.down
                   Sample.close_account [] (SNS_TOPIC_ARN Sample.chat_on)
                   "AWS CloseAccount Notification" Sample.close_account_message _)).
  right; right; left. reflexivity.
Defined.

(** C4: when [principalId] is a string with a colon, the principal the
    detail is formatted with is the piece at index 1 of the identifier split
    on colons.  Whenever the two representations can be built (that is, when
    [requestParameters] is a dict), that piece stands after
    [Calling Principal:] in the message, which [send_sns_notification]
    publishes, and is the third field of the block document, whose JSON text
    [send_slack_notification] posts.  [AIDAEXAMPLE:alice] gives [alice]. *)
Theorem calling_principal_is_second_segment cfg w d pid past :
  at_path d ["userIdentity"; "principalId"] = Some (PStr pid) ->
  Py.contains ":" pid = true ->
  exists who,
    nth_error (Py.split_on ":" pid) 1 = Some who /\
    principal d = Ret who /\
    (forall rp, at_path d ["requestParameters"] = Some (PDict rp) ->
       exists name account time,
         Py.get d "eventName" = Ret name /\
         Py.get (PDict rp) "accountId" = Ret account /\
         Py.get d "eventTime" = Ret time /\
         let message :=
           Py.str name ++ " action has been made for Account " ++ Py.str account
           ++ nl ++ nl
           ++ "Action: " ++ Py.str name ++ " " ++ nl
           ++ "   Target Account: " ++ Py.str account ++ nl
           ++ "   Calling Principal: " ++ who ++ " " ++ nl
           ++ "   TimeStamp: " ++ Py.str time in
         sns_message d = Ret message /\
         slack_blocks d =
           Ret (Spec.block_document ("AWS " ++ Py.str name ++ " Notification")
                  ["*Action:*" ++ nl ++ Py.str name;
                   "*Target Account:*" ++ nl ++ Py.str account;
                   "*Calling Principal:*" ++ nl ++ who;
                   "*TimeStamp:*" ++ nl ++ Py.str time]) /\
         In (Publish (SNS_TOPIC_ARN cfg) ("AWS " ++ Py.str name ++ " Notification") message)
            (snd (send_sns_notification cfg w d past)) /\
         In (Request "POST" (SLACK_ENDPOINT cfg) [("Content-Type", "application/json")]
               (Wire.body (Json.escape ("AWS " ++ Py.str name ++ " Notification"))
                  (Json.escape (Py.str name)) (Json.escape (Py.str account))
                  (Json.escape who) (Json.escape (Py.str time))))
            (snd (send_slack_notification cfg w d past))) /\
    principal (Sample.detail_of "CloseAccount" "AIDAEXAMPLE:alice") = Ret "alice".
Proof.
  intros Hpid Hcolon.
  destruct (principal_second_segment _ _ Hpid Hcolon) as (who & Hseg & Hp).
  exists who. split; [exact Hseg|]. split; [exact Hp|].
  split; [|reflexivity].
  intros rp Hrp. apply at_path_one in Hrp.
  destruct (getitem_dict _ _ _ Hrp) as [kvs ->].
  destruct (get_dict_total kvs "eventName") as [name Hn].
  destruct (get_dict_total rp "accountId") as [account Ha].
  destruct (get_dict_total kvs "eventTime") as [time Ht].
  exists name, account, time.
  split; [exact Hn|]. split; [exact Ha|]. split; [exact Ht|].
  cbn zeta.
  assert (Hacc : accountId (PDict kvs) = Ret account).
  { unfold accountId. now rewrite (getitem_get _ _ _ Hrp). }
  assert (Hm : sns_message (PDict kvs) =
               Ret (f_message (Py.str name) (Py.str account) (Py.str name) (Py.str account)
                      who (Py.str time))).
  { unfold sns_message, eventName, eventTime. now rewrite Hn, Hacc, Hp, Ht. }
  assert (Hb : slack_blocks (PDict kvs) =
               Ret (blocks_literal (Py.str name) (Py.str name) (Py.str account)
                      who (Py.str time))).
  { unfold slack_blocks, eventName, eventTime. now rewrite Hn, Hacc, Hp, Ht. }
  split; [exact Hm|]. split; [exact Hb|]. split.
  - rewrite send_sns_notification_eq, Hm. unfold sns_subject, eventName.
    rewrite Hn. cbn [res_bind snd]. now left.
  - rewrite send_slack_notification_eq, Hb, dumps_blocks_text. cbn [snd]. now left.
Qed.

Lemma calling_principal_is_second_segment_witness :
  principal (Sample.detail_of "CloseAccount" "AIDAEXAMPLE:alice") = Ret "alice" /\
  sns_message (Sample.detail_of "CloseAccount" "AIDAEXAMPLE:alice")
    = Ret Sample.alice_message /\
  slack_blocks (Sample.detail_of "CloseAccount" "AIDAEXAMPLE:alice")
    = Ret (Spec.block_document "AWS CloseAccount Notification"
             ["*Action:*" ++ nl ++ "CloseAccount";
              "*Target Account:*" ++ nl ++ "123456789012";
              "*Calling Principal:*" ++ nl ++ "alice";
              "*TimeStamp:*" ++ nl ++ "2024-01-01T00:00:00Z"]).
Proof.
  destruct (calling_principal_is_second_segment Sample.chat_on Sample.up
              (Sample.detail_of "CloseAccount" "AIDAEXAMPLE:alice") "AIDAEXAMPLE:alice" []
              eq_refl eq_refl) as (who & Hseg & Hp & H & _).
  destruct (H [("accountId", PStr "123456789012")] eq_refl)
    as (name & account & time & Hn & Ha & Ht & Hm & Hb & _).
  cbv in Hseg, Hn, Ha, Ht.
  injection Hseg as <-. injection Hn as <-. injection Ha as <-. injection Ht as <-.
  repeat split; assumption.
Defined.

(** C5: every publish of a run goes to the configured topic, for a closure
    event; its subject is [AWS <eventName> Notification], and its message is
    the f-string filled with the event's name, its
    [requestParameters.accountId], the piece at index 1 of its [principalId]
    and its [eventTime], a string among them put as it is.  When none of
    these holds a line feed the message reads, line by line: a heading, a
    blank line, the action, the target account, the calling principal, the
    time stamp. *)
Theorem published_notification_format cfg w event past topic subject message :
  In (Publish topic subject message) (snd (lambda_handler cfg w event past)) ->
  exists d n account pid who time,
    at_path event ["detail"] = Some d /\
    at_path event ["detail"; "eventName"] = Some (PStr n) /\
    at_path event ["detail"; "requestParameters"; "accountId"] = Some account /\
    at_path event ["detail"; "userIdentity"; "principalId"] = Some (PStr pid) /\
    nth_error (Py.split_on ":" pid) 1 = Some who /\
    Py.get d "eventTime" = Ret time /\
    topic = SNS_TOPIC_ARN cfg /\
    subject = "AWS " ++ n ++ " Notification" /\
    message = f_message n (Py.str account) n (Py.str account) who (Py.str time) /\
    (forall s, account = PStr s -> Py.str account = s) /\
    (forall s, time = PStr s -> Py.str time = s) /\
    (Py.contains "010" (Py.str account) = false ->
     Py.contains "010" who = false ->
     Py.contains "010" (Py.str time) = false ->
     Py.split_on "010" message =
     [n ++ " action has been made for Account " ++ Py.str account;
      EmptyString;
      "Action: " ++ n ++ " ";
      "   Target Account: " ++ Py.str account;
      "   Calling Principal: " ++ who ++ " ";
      "   TimeStamp: " ++ Py.str time]).
Proof.
  intros Hin.
  destruct (dispatched_run cfg w event past _ Hin eq_refl)
    as (d & n & account & pid & who & time & Hd & Hn & Hcl & Hacc & Hpid & Hseg & Ht & _ & Ha).
  destruct Ha as [Ha | [_ Ha]]; [|discriminate].
  injection Ha as -> -> ->.
  exists d, n, account, pid, who, time.
  repeat (split; [assumption || reflexivity|]).
  split; [now intros s ->|]. split; [now intros s ->|].
  intros. apply f_message_lines; auto using closure_name_one_line.
Qed.

Lemma published_notification_format_witness :
  exists n account who time,
    Sample.close_account_message
    = f_message n (Py.str account) n (Py.str account) who (Py.str time).
Proof.
  destruct (published_notification_format Sample.chat_on Sample.up Sample.close_account []
              (SNS_TOPIC_ARN Sample.chat_on) "AWS CloseAccount Notification"
              Sample.close_account_message)
    as (d & n & account & pid & who & time & H).
  - right; right; left. reflexivity.
  - exists n, account, who, time. apply H.
Defined.

(** C6: every request of a run is a POST to the configured endpoint with a
    JSON content type.  Its body is the JSON text of the interface
    description, written out in [Wire.body]: one object with the key
    [blocks], holding a header block whose plain-text title is the subject of
    the publish of the same run, and a section block of exactly four
    [mrkdwn] fields, labelled Action, Target Account, Calling Principal and
    TimeStamp, with the values of the same four fields of the event, escaped
    as JSON wants them; values that are plain text stand in it as they are.
    The body is [json.dumps] of that document. *)
Theorem webhook_body_shape cfg w event past method url headers body :
  In (Request method url headers body) (snd (lambda_handler cfg w event past)) ->
  exists d n account pid who time,
    at_path event ["detail"] = Some d /\
    at_path event ["detail"; "eventName"] = Some (PStr n) /\
    at_path event ["detail"; "requestParameters"; "accountId"] = Some account /\
    at_path event ["detail"; "userIdentity"; "principalId"] = Some (PStr pid) /\
    nth_error (Py.split_on ":" pid) 1 = Some who /\
    Py.get d "eventTime" = Ret time /\
    method = "POST" /\ url = SLACK_ENDPOINT cfg /\
    headers = [("Content-Type", "application/json")] /\
    body = Wire.body ("AWS " ++ n ++ " Notification") n
             (Json.escape (Py.str account)) (Json.escape who)
             (Json.escape (Py.str time)) /\
    (Wire.plain (Py.str account) = true -> Wire.plain who = true ->
     Wire.plain (Py.str time) = true ->
     body = Wire.body ("AWS " ++ n ++ " Notification") n
              (Py.str account) who (Py.str time)) /\
    body = Json.dumps
             (Spec.block_document ("AWS " ++ n ++ " Notification")
                [Spec.labelled "Action" n;
                 Spec.labelled "Target Account" (Py.str account);
                 Spec.labelled "Calling Principal" who;
                 Spec.labelled "TimeStamp" (Py.str time)]) /\
    In (Publish (SNS_TOPIC_ARN cfg) ("AWS " ++ n ++ " Notification")
          (f_message n (Py.str account) n (Py.str account) who (Py.str time)))
       (snd (lambda_handler cfg w event past)).
Proof.
  intros Hin.
  destruct (dispatched_run cfg w event past _ Hin eq_refl)
    as (d & n & account & pid & who & time & Hd & Hn & Hcl & Hacc & Hpid & Hseg & Ht & Hpub & Ha).
  destruct Ha as [Ha | [_ Ha]]; [discriminate|].
  unfold request_of in Ha.
  assert (Hbody : body = Wire.body ("AWS " ++ n ++ " Notification") n
                           (Json.escape (Py.str account)) (Json.escape who)
                           (Json.escape (Py.str time))).
  { destruct (closure_name_plain n Hcl) as [E1 E2].
    rewrite <- E1 at 1. rewrite <- E2 at 2. rewrite <- dumps_blocks_text. congruence. }
  assert (Hdoc : body = Json.dumps (blocks_literal n n (Py.str account) who (Py.str time)))
    by congruence.
  assert (Hm : method = "POST" /\ url = SLACK_ENDPOINT cfg /\
               headers = [("Content-Type", "application/json")]) by (repeat split; congruence).
  destruct Hm as (-> & -> & ->).
  exists d, n, account, pid, who, time.
  repeat (split; [assumption || reflexivity|]).
  split; [|split; [exact Hdoc | exact Hpub]].
  intros Pa Pw Pt. rewrite Hbody.
  now rewrite (escape_plain _ Pa), (escape_plain _ Pw), (escape_plain _ Pt).
Qed.

Lemma webhook_body_shape_witness :
  In (Request "POST" (SLACK_ENDPOINT Sample.chat_on) [("Content-Type", "application/json")]
        Sample.close_account_body_text)
     (snd (lambda_handler Sample.chat_on Sample.up Sample.close_account [])) /\
  Sample.close_account_body_text
    = Wire.body "AWS CloseAccount Notification" "CloseAccount" "123456789012" "bob"
        "2024-01-01T00:00:00Z".
Proof.
  assert (Hin : In (Request "POST" (SLACK_ENDPOINT Sample.chat_on)
                      [("Content-Type", "application/json")] Sample.close_account_body_text)
                   (snd (lambda_handler Sample.chat_on Sample.up Sample.close_account [])))
    by (do 5 right; left; reflexivity).
  split; [exact Hin|].
  destruct (webhook_body_shape Sample.chat_on Sample.up Sample.close_account []
              "POST" (SLACK_ENDPOINT Sample.chat_on)
              [("Content-Type", "application/json")] Sample.close_account_body_text Hin)
    as (d & n & account & pid & who & time
        & Hd & Hn & Ha & Hpid & Hseg & Ht & _ & _ & _ & _ & Hplain & _).
  cbv in Hd, Hn, Ha, Hpid. injection Hd as <-.
  injection Hn as <-. injection Ha as <-. injection Hpid as <-.
  cbv in Hseg, Ht. injection Hseg as <-. injection Ht as <-.
  apply Hplain; reflexivity.
Defined.

(** C7: with the chat flag off, no run of the handler makes a request to the
    webhook, whatever the event and whatever the outside answers. *)
Theorem chat_flag_off_no_request cfg w event past :
  SLACK_NOTIFICATION cfg = false ->
  existsb is_request (snd (lambda_handler cfg w event past)) = false.
Proof.
  intros Hoff.
  destruct (lambda_handler_trace cfg w event past)
    as [-> | [-> | (d & n & account & _ & [(e & _ & ->) | (who & time & l1 & l2 & _ & _ & ->)])]];
    rewrite ?Hoff; reflexivity.
Qed.

Lemma chat_flag_off_no_request_witness :
  existsb is_request
    (snd (lambda_handler Sample.chat_off Sample.up Sample.close_account [])) = false.
Proof.
  apply (chat_flag_off_no_request Sample.chat_off Sample.up Sample.close_account []).
  reflexivity.
Defined.

(** C8: an event whose envelope has no [detail] key makes the handler raise
    the lookup error [KeyError('detail')] at its first line; the error leaves
    the handler, and no log line, publish or request was made before it. *)
Theorem missing_detail_is_fatal cfg w kvs past :
  Py.lookup "detail" kvs = None ->
  lambda_handler cfg w (PDict kvs) past = (Raise (KeyError "detail"), []).
Proof.
  intros H. rewrite lambda_handler_eq. cbn. now rewrite H.
Qed.

Lemma missing_detail_is_fatal_witness :
  lambda_handler Sample.chat_on Sample.up Sample.no_detail [] =
  (Raise (KeyError "detail"), []).
Proof.
  apply (missing_detail_is_fatal Sample.chat_on Sample.up
           [("source", PStr "aws.organizations")] []).
  reflexivity.
Defined.

(** C10: [send_sns_notification] returns normally on every input and in
    every world.  When building the subject or the message raises, all it
    does is log that error: no publish is made; and with the chat flag off
    the handler then returns normally too. *)
Theorem send_sns_notification_total cfg w d past :
  fst (send_sns_notification cfg w d past) = Ret tt /\
  (forall e,
     sns_subject d = Raise e \/
     (exists s, sns_subject d = Ret s /\ sns_message d = Raise e) ->
     snd (send_sns_notification cfg w d past) = [sns_failed_log e]) /\
  (forall event n account e,
     dispatching event d n account -> principal d = Raise e ->
     SLACK_NOTIFICATION cfg = false ->
     fst (lambda_handler cfg w event past) = Ret tt /\
     existsb is_dispatch (snd (lambda_handler cfg w event past)) = false).
Proof.
  rewrite send_sns_notification_eq. cbn [fst snd]. split; [reflexivity|]. split.
  - intros e [-> | (s & -> & ->)]; reflexivity.
  - intros event n account e D Hp Hoff.
    rewrite (lambda_handler_unformatted cfg w event past d n account e D Hp), Hoff.
    split; reflexivity.
Qed.

Lemma send_sns_notification_total_witness :
  snd (send_sns_notification Sample.chat_on Sample.up
         (Sample.detail_of "CloseAccount" "AIDAEXAMPLE") [])
  = [sns_failed_log IndexError].
Proof.
  apply (proj1 (proj2 (send_sns_notification_total Sample.chat_on Sample.up
                         (Sample.detail_of "CloseAccount" "AIDAEXAMPLE") []))).
  right. exists "AWS CloseAccount Notification". split; reflexivity.
Defined.

(** ** Further properties of the handler *)

Lemma second_segment_has_colon pid who :
  nth_error (Py.split_on ":" pid) 1 = Some who -> Py.contains ":" pid = true.
Proof.
  intros H. destruct (Py.contains ":" pid) eqn:E; [reflexivity|].
  rewrite (split_on_absent _ _ E) in H. discriminate.
Qed.

Lemma closure_event_named event n :
  at_path event ["detail"; "eventName"] = Some (PStr n) ->
  n = "CloseAccount" \/ n = "RemoveAccountFromOrganization" ->
  closure_event event = true.
Proof. unfold closure_event. intros -> [-> | ->]; reflexivity. Qed.

(** X1: the handler publishes exactly for the closure events that carry
    [requestParameters.accountId] and a string [userIdentity.principalId]
    with a colon; whatever the world answers and whatever the chat flag. *)
Theorem publish_iff_well_formed cfg w event past :
  existsb is_publish (snd (lambda_handler cfg w event past)) = true <->
  closure_event event = true /\
  (exists account,
     at_path event ["detail"; "requestParameters"; "accountId"] = Some account) /\
  (exists pid,
     at_path event ["detail"; "userIdentity"; "principalId"] = Some (PStr pid) /\
     Py.contains ":" pid = true).
Proof.
  split.
  - intros H. apply existsb_exists in H as (a & Hin & Ha).
    assert (Hd : is_dispatch a = true) by (unfold is_dispatch; now rewrite Ha).
    destruct (dispatched_run cfg w event past a Hin Hd)
      as (d & n & account & pid & who & time & _ & Hn & Hcl & Hacc & Hpid & Hseg & _).
    split; [now apply (closure_event_named event n)|].
    split; [eauto|]. exists pid. split; [exact Hpid|].
    now apply (second_segment_has_colon pid who).
  - intros (Hc & (account & Ha) & (pid & Hpid & Hcolon)).
    destruct (closure_dispatching _ _ Hc Ha) as (d & n & D).
    pose proof D as (Hd & _).
    rewrite (detail_path _ _ _ Hd) in Hpid.
    destruct (principal_second_segment _ _ Hpid Hcolon) as (who & _ & Hp).
    destruct (dispatching_fields _ _ _ _ D) as (_ & _ & time & Ht).
    rewrite (lambda_handler_notified cfg w event past d n account who time D Hp Ht).
    reflexivity.
Qed.

(** X2: the dispatch calls of a run, in order, are none, or one publish, or
    one publish followed by one request built from the same four fields; the
    request is there exactly when the chat flag is on.  So nothing is sent
    twice, the webhook is never called before or without the publish, and
    the two messages never mix fields. *)
Theorem dispatch_sequence cfg w event past :
  filter is_dispatch (snd (lambda_handler cfg w event past)) = [] \/
  exists n account who time,
    filter is_dispatch (snd (lambda_handler cfg w event past)) =
    publish_of cfg n account who time ::
    (if SLACK_NOTIFICATION cfg then [request_of cfg n account who time] else []).
Proof.
  destruct (lambda_handler_trace cfg w event past)
    as [-> | [-> | (d & n & account & _ & [(e & _ & ->) | (who & time & l1 & l2 & _ & _ & ->)])]].
  - now left.
  - now left.
  - left. destruct (SLACK_NOTIFICATION cfg); reflexivity.
  - right. exists n, account, who, time.
    destruct (SLACK_NOTIFICATION cfg); reflexivity.
Qed.

Lemma getitem_raises v k e :
  Py.getitem v k = Raise e -> (exists key, e = KeyError key) \/ (exists t, e = TypeError t).
Proof.
  destruct v; cbn; try (intros [= <-]; right; eauto).
  destruct (Py.lookup k l); [discriminate|]. intros [= <-]. left; eauto.
Qed.

Lemma get_raises v k e :
  Py.get v k = Raise e -> e = AttributeError (Py.type_name v) "get".
Proof.
  destruct v; cbn; try congruence.
  destruct (Py.lookup k l); discriminate.
Qed.

Lemma principal_raises d e :
  principal d = Raise e -> e = IndexError \/ exists t a, e = AttributeError t a.
Proof.
  unfold principal.
  destruct (Py.get d "userIdentity") as [ui|e1] eqn:E1; cbn [res_bind].
  - destruct (Py.get ui "principalId") as [pid|e2] eqn:E2; cbn [res_bind].
    + destruct pid; cbn; try (intros [= <-]; right; eauto).
      unfold Py.index. destruct (nth_error _ 1); [discriminate|].
      intros [= <-]. now left.
    + intros [= <-]. apply get_raises in E2. right; eauto.
  - intros [= <-]. apply get_raises in E1. right; eauto.
Qed.

Lemma lambda_handler_failure cfg w event past e :
  fst (lambda_handler cfg w event past) = Raise e ->
  existsb is_dispatch (snd (lambda_handler cfg w event past)) = false /\
  ((snd (lambda_handler cfg w event past) = [] /\
    ((exists key, e = KeyError key) \/ (exists t, e = TypeError t))) \/
   (SLACK_NOTIFICATION cfg = true /\
    (e = IndexError \/ exists t a, e = AttributeError t a))).
Proof.
  intros H.
  destruct (lambda_handler_cases cfg w event past)
    as [[e' E] | [[_ E] | (d & n & account & D)]].
  - rewrite E in H |- *. cbn in H. injection H as ->. split; [reflexivity|].
    left. split; [reflexivity|].
    rewrite lambda_handler_eq in E.
    destruct (Py.getitem event "detail") as [d|e1] eqn:E1;
      [|injection E as ->; now apply getitem_raises in E1].
    destruct (Py.getitem d "eventName") as [name|e2] eqn:E2;
      [|injection E as ->; now apply getitem_raises in E2].
    destruct (Py.in_strs name _); [|discriminate].
    destruct (Py.getitem d "requestParameters") as [rp|e3] eqn:E3;
      [|injection E as ->; now apply getitem_raises in E3].
    destruct (Py.getitem rp "accountId") as [account|e4] eqn:E4;
      [|injection E as ->; now apply getitem_raises in E4].
    cbn zeta in E. unfold received_logs in E.
    destruct (SLACK_NOTIFICATION cfg); cbn [app] in E; discriminate.
  - rewrite E in H. discriminate.
  - destruct (principal d) as [who|e'] eqn:Hp.
    + destruct (dispatching_fields _ _ _ _ D) as (_ & _ & time & Ht).
      rewrite (lambda_handler_notified cfg w event past d n account who time D Hp Ht) in H.
      discriminate.
    + rewrite (lambda_handler_unformatted cfg w event past d n account e' D Hp) in H |- *.
      cbn [fst snd] in *.
      destruct (SLACK_NOTIFICATION cfg); [|discriminate].
      injection H as ->. split; [reflexivity|]. right. split; [reflexivity|].
      now apply (principal_raises d).
Qed.

(** X3: an invocation that fails has sent nothing.  If the decorated handler
    raises, no publish and no request was made; the error is a [KeyError] or
    a [TypeError] of the envelope, raised when the only logger call so far is
    the decorator's log of the event, or, with the chat flag on, the
    [IndexError] or [AttributeError] of building the blocks.  No error of SNS
    or of the webhook ever leaves the handler. *)
Theorem failure_means_nothing_dispatched cfg w event past e :
  fst (lambda_handler_decorated cfg w event past) = Raise e ->
  existsb is_dispatch (snd (lambda_handler_decorated cfg w event past)) = false /\
  ((snd (lambda_handler_decorated cfg w event past) = [LogValue INFO event] /\
    ((exists key, e = KeyError key) \/ (exists t, e = TypeError t))) \/
   (SLACK_NOTIFICATION cfg = true /\
    (e = IndexError \/ exists t a, e = AttributeError t a))).
Proof.
  rewrite lambda_handler_decorated_eq. cbn [fst snd existsb is_dispatch is_publish is_request orb].
  intros H. destruct (lambda_handler_failure _ _ _ _ _ H) as [Hno [[Hnil Hk] | Hs]].
  - split; [exact Hno|]. left. now rewrite Hnil.
  - split; [exact Hno|]. now right.
Qed.

Lemma failure_means_nothing_dispatched_witness :
  existsb is_dispatch
    (snd (lambda_handler_decorated Sample.chat_on Sample.up Sample.no_colon [])) = false.
Proof.
  apply (proj1 (failure_means_nothing_dispatched Sample.chat_on Sample.up
                  Sample.no_colon [] IndexError eq_refl)).
Defined.

(** X4: an event whose [detail] has no [eventName] stops the handler at its
    filter: with [KeyError('eventName')] when the detail is a dict, with a
    [TypeError] when it is anything else.  The decorator has logged the
    event; the function itself has logged nothing, and nothing is sent. *)
Theorem missing_event_name_is_fatal cfg w event past d :
  at_path event ["detail"] = Some d ->
  at_path d ["eventName"] = None ->
  lambda_handler_decorated cfg w event past =
  (Raise (match d with
          | PDict _ => KeyError "eventName"
          | _ => TypeError (Py.type_name d)
          end), [LogValue INFO event]).
Proof.
  intros Hd Hn. apply at_path_one in Hd.
  rewrite lambda_handler_decorated_eq, lambda_handler_eq, Hd.
  destruct d; try reflexivity.
  cbn in Hn |- *. destruct (Py.lookup "eventName" l); [discriminate|reflexivity].
Qed.

Lemma missing_event_name_is_fatal_witness :
  lambda_handler_decorated Sample.chat_on Sample.up Sample.no_name [] =
  (Raise (KeyError "eventName"), [LogValue INFO Sample.no_name]).
Proof.
  apply (missing_event_name_is_fatal Sample.chat_on Sample.up Sample.no_name []
           (PDict [("eventTime", PStr "2024-01-01T00:00:00Z")])); reflexivity.
Defined.

(** X5: a closure event without [requestParameters.accountId] is never
    notified: the first log line of the function reads the account with
    [[...]] and raises, a [KeyError] or a [TypeError].  The decorator has
    logged the event; the function itself has logged nothing, and nothing is
    sent. *)
Theorem closure_event_without_account_is_fatal cfg w event past :
  closure_event event = true ->
  at_path event ["detail"; "requestParameters"; "accountId"] = None ->
  exists e,
    lambda_handler_decorated cfg w event past = (Raise e, [LogValue INFO event]) /\
    ((exists key, e = KeyError key) \/ (exists t, e = TypeError t)).
Proof.
  intros Hc Ha.
  apply closure_event_filter in Hc as (d & n & Hd & Hn & Hcl).
  rewrite (detail_path _ _ _ Hd), at_path_cons in Ha.
  rewrite lambda_handler_decorated_eq, lambda_handler_eq, Hd, Hn, (closure_in_strs _ Hcl).
  destruct (Py.getitem d "requestParameters") as [rp|e] eqn:Hrp.
  - rewrite at_path_cons in Ha.
    destruct (Py.getitem rp "accountId") as [account|e] eqn:Hacc; [discriminate|].
    exists e. split; [reflexivity|]. now apply getitem_raises in Hacc.
  - exists e. split; [reflexivity|]. now apply getitem_raises in Hrp.
Qed.

Lemma closure_event_without_account_is_fatal_witness :
  exists e,
    lambda_handler_decorated Sample.chat_on Sample.up Sample.no_parameters []
      = (Raise e, [LogValue INFO Sample.no_parameters]) /\
    ((exists key, e = KeyError key) \/ (exists t, e = TypeError t)).
Proof.
  apply (closure_event_without_account_is_fatal Sample.chat_on Sample.up
           Sample.no_parameters []); reflexivity.
Defined.

(** X6: a missing [eventTime] is not an error: [.get] gives [None], and the
    notification goes out with the text [None] as its time stamp: the last
    line of the message is [TimeStamp: None], and the last field of the
    webhook body is the label [TimeStamp] followed by [None]. *)
Theorem missing_event_time_prints_None cfg w event past account pid who :
  closure_event event = true ->
  at_path event ["detail"; "requestParameters"; "accountId"] = Some account ->
  at_path event ["detail"; "userIdentity"; "principalId"] = Some (PStr pid) ->
  nth_error (Py.split_on ":" pid) 1 = Some who ->
  at_path event ["detail"; "eventTime"] = None ->
  exists n,
    at_path event ["detail"; "eventName"] = Some (PStr n) /\
    filter is_dispatch (snd (lambda_handler cfg w event past)) =
    Publish (SNS_TOPIC_ARN cfg) ("AWS " ++ n ++ " Notification")
      (n ++ " action has been made for Account " ++ Py.str account ++ nl ++ nl
       ++ "Action: " ++ n ++ " " ++ nl
       ++ "   Target Account: " ++ Py.str account ++ nl
       ++ "   Calling Principal: " ++ who ++ " " ++ nl
       ++ "   TimeStamp: None") ::
    (if SLACK_NOTIFICATION cfg
     then [Request "POST" (SLACK_ENDPOINT cfg) [("Content-Type", "application/json")]
             (Wire.body ("AWS " ++ n ++ " Notification") n
                (Json.escape (Py.str account)) (Json.escape who) "None")]
     else []).
Proof.
  intros Hc Ha Hpid Hseg Htime.
  destruct (closure_dispatching _ _ Hc Ha) as (d & n & D).
  destruct (dispatching_closure _ _ _ _ D) as (_ & _ & Hn & _).
  pose proof D as (Hd & Hn' & Hcl & _).
  rewrite (detail_path _ _ _ Hd) in Hpid. rewrite (detail_path _ _ _ Hd) in Htime.
  assert (Hp : principal d = Ret who).
  { rewrite (principal_of_id _ _ Hpid). unfold Py.index. now rewrite Hseg. }
  assert (Ht : eventTime d = Ret PNone).
  { destruct (getitem_dict _ _ _ Hn') as [kvs ->]. unfold eventTime. cbn in Htime |- *.
    destruct (Py.lookup "eventTime" kvs); [discriminate|reflexivity]. }
  exists n. split; [exact Hn|].
  rewrite (lambda_handler_notified cfg w event past d n account who PNone D Hp Ht).
  cbn zeta. cbn [snd].
  destruct (sns_result_log_is_log w (past ++ received_logs n account)%list
              (publish_of cfg n account who PNone) n account) as (l1 & m1 & ->).
  unfold publish_of, request_of. rewrite dumps_blocks_text.
  destruct (closure_name_plain n Hcl) as [-> ->].
  destruct (SLACK_NOTIFICATION cfg); [|reflexivity].
  match goal with |- context [slack_result_log ?w ?h ?r] =>
    destruct (slack_result_log_is_log w h r) as (l2 & m2 & ->) end.
  reflexivity.
Qed.

Lemma missing_event_time_prints_None_witness :
  filter is_dispatch (snd (lambda_handler Sample.chat_on Sample.up Sample.no_time [])) =
  [Publish (SNS_TOPIC_ARN Sample.chat_on) "AWS CloseAccount Notification"
     Sample.no_time_message;
   Request "POST" (SLACK_ENDPOINT Sample.chat_on) [("Content-Type", "application/json")]
     Sample.no_time_body_text].
Proof.
  destruct (missing_event_time_prints_None Sample.chat_on Sample.up Sample.no_time []
              (PStr "123456789012") "AIDAEXAMPLE:bob" "bob"
              eq_refl eq_refl eq_refl eq_refl eq_refl) as (n & Hn & H).
  cbv in Hn. injection Hn as <-.
  exact H.
Defined.

(** X7: when [userIdentity.principalId] is missing or is not a string, the
    principal cannot be read: [.get] on a missing [userIdentity] or [.split]
    on a missing [principalId] raises an [AttributeError].  For a closure
    event with an account, nothing is sent; the SNS sender logs the error,
    and the invocation fails with it exactly when the chat flag is on. *)
Theorem identity_not_a_string cfg w event past account :
  closure_event event = true ->
  at_path event ["detail"; "requestParameters"; "accountId"] = Some account ->
  (forall pid, at_path event ["detail"; "userIdentity"; "principalId"] <> Some (PStr pid)) ->
  exists t a,
    (a = "get" \/ a = "split") /\
    In (sns_failed_log (AttributeError t a)) (snd (lambda_handler cfg w event past)) /\
    existsb is_dispatch (snd (lambda_handler cfg w event past)) = false /\
    fst (lambda_handler cfg w event past) =
      if SLACK_NOTIFICATION cfg then Raise (AttributeError t a) else Ret tt.
Proof.
  intros Hc Ha Hno.
  destruct (closure_dispatching _ _ Hc Ha) as (d & n & D).
  pose proof D as (Hd & Hn & _).
  assert (Hp : exists t a, (a = "get" \/ a = "split") /\ principal d = Raise (AttributeError t a)).
  { assert (Hno' : forall pid, at_path d ["userIdentity"; "principalId"] <> Some (PStr pid)).
    { intros pid. rewrite <- (detail_path _ _ _ Hd). apply Hno. }
    destruct (getitem_dict _ _ _ Hn) as [kvs ->].
    unfold principal. cbn in Hno' |- *.
    destruct (Py.lookup "userIdentity" kvs) as [ui|].
    - destruct ui; cbn; try (do 2 eexists; split; [left|]; reflexivity).
      destruct (Py.lookup "principalId" l) as [pid|]; cbn.
      + destruct pid; cbn; try (do 2 eexists; split; [right|]; reflexivity).
        now destruct (Hno' s).
      + do 2 eexists; split; [right|]; reflexivity.
    - do 2 eexists; split; [left|]; reflexivity. }
  destruct Hp as (t & a & Hattr & Hp). exists t, a. split; [exact Hattr|].
  rewrite (lambda_handler_unformatted cfg w event past d n account _ D Hp).
  cbn [fst snd]. split; [|split; [|reflexivity]].
  - apply in_or_app. right. now left.
  - destruct (SLACK_NOTIFICATION cfg); reflexivity.
Qed.

Lemma identity_not_a_string_witness :
  exists t a,
    fst (lambda_handler Sample.chat_on Sample.up
           (PDict [("detail", PDict
              [("eventName", PStr "CloseAccount");
               ("requestParameters", PDict [("accountId", PStr "123456789012")])])]) [])
    = Raise (AttributeError t a).
Proof.
  destruct (identity_not_a_string Sample.chat_on Sample.up
              (PDict [("detail", PDict
                 [("eventName", PStr "CloseAccount");
                  ("requestParameters", PDict [("accountId", PStr "123456789012")])])])
              [] (PStr "123456789012") eq_refl eq_refl)
    as (t & a & _ & _ & _ & H).
  - intros pid. discriminate.
  - exists t, a. exact H.
Defined.

(** X8: the two senders agree on which details are malformed.  On any
    input, either both make their call, the one its publish and the other
    its request, or the Slack sender raises an error before any action and
    the SNS sender publishes nothing and logs that same error. *)
Theorem senders_agree_on_malformed cfg w v past past' :
  (fst (send_slack_notification cfg w v past') = Ret tt /\
   existsb is_request (snd (send_slack_notification cfg w v past')) = true /\
   existsb is_publish (snd (send_sns_notification cfg w v past)) = true) \/
  (exists e,
     send_slack_notification cfg w v past' = (Raise e, []) /\
     snd (send_sns_notification cfg w v past) = [sns_failed_log e]).
Proof.
  rewrite send_sns_notification_eq, send_slack_notification_eq.
  unfold sns_subject, sns_message, slack_blocks.
  destruct (eventName v) as [name|e]; cbn [res_bind]; [|right; eauto].
  destruct (accountId v) as [account|e]; cbn [res_bind]; [|right; eauto].
  destruct (principal v) as [who|e]; cbn [res_bind]; [|right; eauto].
  destruct (eventTime v) as [time|e]; cbn [res_bind]; [|right; eauto].
  left. repeat split.
Qed.

(** X9: the subject of every publish is one of two fixed texts, whatever the
    event holds. *)
Theorem published_subject_is_fixed cfg w event past topic subject message :
  In (Publish topic subject message) (snd (lambda_handler cfg w event past)) ->
  subject = "AWS CloseAccount Notification" \/
  subject = "AWS RemoveAccountFromOrganization Notification".
Proof.
  intros Hin.
  destruct (dispatched_run cfg w event past _ Hin eq_refl)
    as (d & n & account & pid & who & time & _ & _ & Hcl & _ & _ & _ & _ & _ & Ha).
  destruct Ha as [Ha | [_ Ha]]; [|discriminate].
  injection Ha as -> -> ->.
  destruct Hcl as [-> | ->]; [left | right]; reflexivity.
Qed.

Lemma published_subject_is_fixed_witness :
  "AWS CloseAccount Notification" = "AWS CloseAccount Notification" \/
  "AWS CloseAccount Notification" = "AWS RemoveAccountFromOrganization Notification".
Proof.
  apply (published_subject_is_fixed Sample.chat_on Sample.up Sample.close_account []
           (SNS_TOPIC_ARN Sample.chat_on) "AWS CloseAccount Notification"
           Sample.close_account_message).
  right; right; left. reflexivity.
Defined.

(** X10: the chat channel is off unless asked for: when the environment has
    no [SLACK_NOTIFICATION], the configuration loads, and with it no run of
    the handler makes a request to the webhook. *)
Theorem chat_is_off_by_default env :
  environ_get env "SLACK_NOTIFICATION" = None ->
  exists cfg,
    load_config env = Ret cfg /\
    SLACK_ENDPOINT cfg = environ_get env "SLACK_ENDPOINT" /\
    SNS_TOPIC_ARN cfg = environ_get env "SNS_TOPIC_ARN" /\
    forall w event past,
      existsb is_request (snd (lambda_handler cfg w event past)) = false.
Proof.
  intros H.
  set (cfg := {| SLACK_ENDPOINT := environ_get env "SLACK_ENDPOINT";
                 SLACK_NOTIFICATION := false;
                 SNS_TOPIC_ARN := environ_get env "SNS_TOPIC_ARN" |}).
  exists cfg. split; [unfold load_config; now rewrite H|].
  split; [reflexivity|]. split; [reflexivity|].
  intros w event past.
  destruct (lambda_handler_trace cfg w event past)
    as [-> | [-> | (d & n & account & _ & [(e & _ & ->) | (who & time & l1 & l2 & _ & _ & ->)])]];
    reflexivity.
Qed.

Lemma chat_is_off_by_default_witness :
  exists cfg,
    load_config [("SNS_TOPIC_ARN", "arn:aws:sns:us-east-1:111122223333:closures")] = Ret cfg /\
    SLACK_NOTIFICATION cfg = false.
Proof.
  destruct (chat_is_off_by_default
              [("SNS_TOPIC_ARN", "arn:aws:sns:us-east-1:111122223333:closures")] eq_refl)
    as (cfg & Hload & _).
  exists cfg. split; [exact Hload|].
  cbv in Hload. injection Hload as <-. reflexivity.
Defined.

Lemma split_on_pieces_clean sep s :
  Forall (fun piece => Py.contains sep piece = false) (Py.split_on sep s).
Proof.
  induction s as [|c rest IH]; cbn [Py.split_on].
  - repeat constructor.
  - destruct (Ascii.eqb c sep) eqn:E.
    + constructor; [reflexivity | exact IH].
    + destruct (Py.split_on sep rest) as [|x xs].
      * repeat constructor. cbn. now rewrite Ascii.eqb_sym, E.
      * inversion IH as [|? ? Hx Hxs]; subst. constructor; [|exact Hxs].
        rewrite contains_cons, Ascii.eqb_sym, E. exact Hx.
Qed.

(** X11: only the second piece of [principalId] is used.  When the
    identifier is [a:b] or [a:b:more], with no colon in [a] and [b], the
    principal is [b]; what follows a second colon is dropped.  Whatever the
    identifier, the principal holds no colon. *)
Theorem principal_is_the_second_piece d a b :
  Py.contains ":" a = false -> Py.contains ":" b = false ->
  (at_path d ["userIdentity"; "principalId"] = Some (PStr (a ++ String ":" b)) ->
   principal d = Ret b) /\
  (forall more,
     at_path d ["userIdentity"; "principalId"]
       = Some (PStr (a ++ String ":" (b ++ String ":" more))) ->
     principal d = Ret b) /\
  (forall who, principal d = Ret who -> Py.contains ":" who = false).
Proof.
  intros Ha Hb. split; [|split].
  - intros H. rewrite (principal_of_id _ _ H), (split_on_first _ _ _ Ha),
      (split_on_absent _ _ Hb). reflexivity.
  - intros more H. rewrite (principal_of_id _ _ H), (split_on_first _ _ _ Ha),
      (split_on_first _ _ _ Hb). reflexivity.
  - intros who H. destruct (principal_inv _ _ H) as (pid & _ & Hseg).
    apply nth_error_In in Hseg.
    pose proof (split_on_pieces_clean ":" pid) as Hall.
    rewrite Forall_forall in Hall. now apply Hall.
Qed.

Lemma principal_is_the_second_piece_witness :
  principal (Sample.detail_of "CloseAccount" "AROAEXAMPLE:session:extra") = Ret "session".
Proof.
  apply (proj1 (proj2 (principal_is_the_second_piece
                         (Sample.detail_of "CloseAccount" "AROAEXAMPLE:session:extra")
                         "AROAEXAMPLE" "session" eq_refl eq_refl)) "extra").
  reflexivity.
Defined.

(** X12: [split] loses nothing and keeps the separator out: joining the
    pieces with the separator gives the string back, no piece holds the
    separator, and there is one piece more than there are separators. *)
Theorem split_on_pieces sep s :
  Py.join (String sep EmptyString) (Py.split_on sep s) = s /\
  Forall (fun piece => Py.contains sep piece = false) (Py.split_on sep s) /\
  length (Py.split_on sep s)
    = S (length (filter (Ascii.eqb sep) (list_ascii_of_string s))).
Proof.
  split; [apply join_split_on|]. split; [apply split_on_pieces_clean|].
  induction s as [|c rest IH]; [reflexivity|].
  cbn [Py.split_on list_ascii_of_string filter].
  rewrite (Ascii.eqb_sym sep c).
  destruct (Ascii.eqb c sep).
  - cbn [length]. now rewrite IH.
  - destruct (Py.split_on sep rest) as [|x xs] eqn:E;
      [now apply split_on_nonempty in E|].
    cbn [length] in *. exact IH.
Qed.

(** *** The webhook body *)

Lemma escape_cons c rest :
  Json.escape (String c rest) = Json.escape (String c EmptyString) ++ Json.escape rest.
Proof.
  cbn [Json.escape]. now rewrite append_assoc.
Qed.

Lemma ascii_only_app s t : ascii_only (s ++ t) = ascii_only s && ascii_only t.
Proof.
  unfold ascii_only. induction s as [|c s IH]; [reflexivity|].
  cbn [String.append list_ascii_of_string forallb]. now rewrite IH, andb_assoc.
Qed.

Lemma escape_char_ascii c : ascii_only (Json.escape (String c EmptyString)) = true.
Proof. destruct c as [[] [] [] [] [] [] [] []]; reflexivity. Qed.

Lemma escape_ascii s : ascii_only (Json.escape s) = true.
Proof.
  induction s as [|c rest IH]; [reflexivity|].
  now rewrite escape_cons, ascii_only_app, escape_char_ascii, IH.
Qed.

Lemma quoted_ascii s : ascii_only (Json.quoted s) = true.
Proof.
  unfold Json.quoted.
  change (String Py.dquote (Json.escape s ++ String Py.dquote EmptyString))
    with (String Py.dquote EmptyString ++ Json.escape s ++ String Py.dquote EmptyString).
  now rewrite !ascii_only_app, escape_ascii.
Qed.

Lemma blocks_ascii name name' account who time :
  ascii_only (Json.dumps (blocks_literal name name' account who time)) = true.
Proof.
  unfold blocks_literal.
  cbn [Json.dumps map Py.join String.concat fst snd].
  repeat (rewrite ascii_only_app || rewrite quoted_ascii).
  reflexivity.
Qed.

Lemma read_escape_char c rest :
  Reader.read (Json.escape (String c EmptyString) ++ rest) =
  match Reader.read rest with
  | Some (text, after) => Some (String c text, after)
  | None => None
  end.
Proof. destruct c as [[] [] [] [] [] [] [] []]; reflexivity. Qed.

(** Reading back an escaped text gives the text. *)
Lemma read_escape s rest :
  Reader.read (Json.escape s ++ String Py.dquote rest) = Some (s, rest).
Proof.
  induction s as [|c s IH]; [reflexivity|].
  now rewrite escape_cons, append_assoc, read_escape_char, IH.
Qed.

Lemma escaped_inj s1 rest1 s2 rest2 :
  Json.escape s1 ++ String Py.dquote rest1 = Json.escape s2 ++ String Py.dquote rest2 ->
  s1 = s2 /\ rest1 = rest2.
Proof.
  intros H. apply (f_equal Reader.read) in H. rewrite !read_escape in H.
  now injection H.
Qed.

Lemma append_length (s t : string) :
  String.length (s ++ t) = String.length s + String.length t.
Proof. induction s; cbn; congruence. Qed.

Lemma append_cancel_r (a b c : string) : a ++ c = b ++ c -> a = b.
Proof.
  revert b. induction a as [|x a IH]; intros [|y b] H.
  - reflexivity.
  - apply (f_equal String.length) in H. cbn in H. rewrite append_length in H. lia.
  - apply (f_equal String.length) in H. cbn in H. rewrite append_length in H. lia.
  - cbn in H. injection H as -> H. f_equal. now apply IH.
Qed.

(** X13: the body of every request to the webhook is printable ASCII on one
    line: [json.dumps] escapes the line feeds of the field texts and every
    character outside ASCII that the event may hold. *)
Theorem webhook_body_is_ascii cfg w event past method url headers body :
  In (Request method url headers body) (snd (lambda_handler cfg w event past)) ->
  ascii_only body = true /\ Py.contains "010" body = false.
Proof.
  intros Hin.
  destruct (dispatched_run cfg w event past _ Hin eq_refl)
    as (d & n & account & pid & who & time & _ & _ & _ & _ & _ & _ & _ & _ & Ha).
  destruct Ha as [Ha | [_ Ha]]; [discriminate|].
  assert (E : body = Json.dumps (blocks_literal n n (Py.str account) who (Py.str time)))
    by (unfold request_of in Ha; congruence).
  pose proof (blocks_ascii n n (Py.str account) who (Py.str time)) as H.
  rewrite <- E in H. clear E Hin Ha.
  split; [exact H|].
  revert H. generalize body as s.
  intros s. unfold ascii_only, Py.contains.
  induction (list_ascii_of_string s) as [|c l IH]; [reflexivity|].
  cbn [forallb existsb]. intros H. apply andb_prop in H as [Hc Hl].
  rewrite (IH Hl), orb_false_r.
  destruct (Ascii.eqb_spec "010"%char c) as [<-|]; [discriminate|reflexivity].
Qed.

Lemma webhook_body_is_ascii_witness :
  ascii_only Sample.close_account_body = true /\
  Py.contains "010" Sample.close_account_body = false.
Proof.
  apply (webhook_body_is_ascii Sample.chat_on Sample.up Sample.close_account []
           "POST" (SLACK_ENDPOINT Sample.chat_on)
           [("Content-Type", "application/json")] Sample.close_account_body).
  do 5 right. left. reflexivity.
Defined.

(** X14: the body of the webhook request loses nothing of what it was built
    from: two block documents with the same [json.dumps] text have the same
    title name, action, account, principal and time. *)
Theorem webhook_body_determines_fields n1 n1' a1 w1 t1 n2 n2' a2 w2 t2 :
  Json.dumps (blocks_literal n1 n1' a1 w1 t1)
    = Json.dumps (blocks_literal n2 n2' a2 w2 t2) ->
  n1 = n2 /\ n1' = n2' /\ a1 = a2 /\ w1 = w2 /\ t1 = t2.
Proof.
  unfold blocks_literal, f_title, nl.
  cbn [Json.dumps map Py.join String.concat fst snd].
  rewrite !append_assoc. cbn [String.append].
  intros H.
  repeat first [ injection H as H
               | rewrite ?append_assoc in H; cbn [String.append] in H;
                 apply escaped_inj in H; destruct H as [? H] ].
  repeat split; try assumption.
  now apply (append_cancel_r n1 n2 " Notification").
Qed.

Lemma webhook_body_determines_fields_witness :
  "CloseAccount" = "CloseAccount" /\ "CloseAccount" = "CloseAccount" /\
  "123456789012" = "123456789012" /\ "bob" = "bob" /\
  "2024-01-01T00:00:00Z" = "2024-01-01T00:00:00Z".
Proof.
  apply (webhook_body_determines_fields
           "CloseAccount" "CloseAccount" "123456789012" "bob" "2024-01-01T00:00:00Z"
           "CloseAccount" "CloseAccount" "123456789012" "bob" "2024-01-01T00:00:00Z").
  reflexivity.
Defined.

(** X15: the message published to the topic loses nothing either, as long
    as no field holds a line feed: two messages that are the same text were
    built from the same action, account, principal and time. *)
Theorem message_determines_fields n1 a1 w1 t1 n2 a2 w2 t2 :
  Py.contains "010" n1 = false -> Py.contains "010" a1 = false ->
  Py.contains "010" w1 = false -> Py.contains "010" t1 = false ->
  Py.contains "010" n2 = false -> Py.contains "010" a2 = false ->
  Py.contains "010" w2 = false -> Py.contains "010" t2 = false ->
  f_message n1 a1 n1 a1 w1 t1 = f_message n2 a2 n2 a2 w2 t2 ->
  n1 = n2 /\ a1 = a2 /\ w1 = w2 /\ t1 = t2.
Proof.
  intros Hn1 Ha1 Hw1 Ht1 Hn2 Ha2 Hw2 Ht2 H.
  apply (f_equal (Py.split_on "010")) in H.
  rewrite !f_message_lines in H by assumption.
  injection H as _ Hn Ha Hw Ht.
  apply append_cancel_r in Hn. apply append_cancel_r in Hw.
  repeat split; assumption.
Qed.

Lemma message_determines_fields_witness :
  "CloseAccount" = "CloseAccount" /\ "123456789012" = "123456789012" /\
  "bob" = "bob" /\ "2024-01-01T00:00:00Z" = "2024-01-01T00:00:00Z".
Proof.
  apply (message_determines_fields
           "CloseAccount" "123456789012" "bob" "2024-01-01T00:00:00Z"
           "CloseAccount" "123456789012" "bob" "2024-01-01T00:00:00Z");
    reflexivity.
Defined.
